(** * ShiftPlanner: weekend-shift extraction from calendar exports

    A shallow embedding of [backend/scripts/debug_jan26.py] and of the
    parts of Python's [datetime], [re] and [str] it calls, together with
    the properties the specification states about it.

    Conventions.
    - A Python [str] is a Rocq [string]: one [ascii] per character, so the
      model covers texts whose code points are below 256.  In that range the
      only characters matched by the regex class [\d] are ['0'..'9'].
    - A Python [int] is a [Z]; [//] and [%] by a positive divisor are
      [Z.div] and [Z.modulo].
    - A [datetime] at midnight is the record of its [year], [month], [day]
      fields; its arithmetic goes through the proleptic Gregorian ordinal,
      as in [Lib/_pydatetime.py].
    - A computation that may raise returns a [result]. *)

From Stdlib Require Import ZArith Lia List Bool Ascii String DecimalString.
From Stdlib Require Import Sorting.Sorted Sorting.Permutation.
Import ListNotations.

Local Open Scope string_scope.
Local Open Scope list_scope.
Local Open Scope Z_scope.

(** * Part I: the program *)

(** ** Exceptions *)

Inductive exn : Type :=
| ValueError
| OverflowError.

(** [OutOfFuel] is not a Python outcome: it is what a bounded unrolling of
    the [while] loop yields when the bound is too small.
    [process_block_terminates] shows that the bound [process_block] uses
    never is. *)
Inductive result (A : Type) : Type :=
| Ok (a : A)
| Raise (e : exn)
| OutOfFuel.

Arguments Ok {A} a.
Arguments Raise {A} e.
Arguments OutOfFuel {A}.

Definition bind {A B : Type} (m : result A) (k : A -> result B) : result B :=
  match m with
  | Ok a => k a
  | Raise e => Raise e
  | OutOfFuel => OutOfFuel
  end.

Notation "x <- m ;; k" := (bind m (fun x => k))
  (at level 61, m at next level, right associativity).

(** ** Python's [str] operations used by the script *)

Module PyStr.

Definition code (c : ascii) : Z := Z.of_N (N_of_ascii c).

(** [c.isdigit()] restricted to code points below 256, which is also what
    the regex class [\d] matches there. *)
Definition isdigit (c : ascii) : bool := (48 <=? code c) && (code c <=? 57).

(** [c.isspace()] below code point 256: TAB..CR, FS..US, space, NEL, NBSP. *)
Definition isspace (c : ascii) : bool :=
  let n := code c in
  ((9 <=? n) && (n <=? 13)) || ((28 <=? n) && (n <=? 32))
  || (n =? 133) || (n =? 160).

(** [s.startswith(p)]. *)
Fixpoint startswith (p s : string) : bool :=
  match p with
  | EmptyString => true
  | String a p' =>
      match s with
      | EmptyString => false
      | String b s' => Ascii.eqb a b && startswith p' s'
      end
  end.

(** [sub in s]. *)
Fixpoint contains (sub s : string) : bool :=
  startswith sub s
  || match s with
     | EmptyString => false
     | String _ s' => contains sub s'
     end.

(** The text after a leading [p], when [s] starts with [p]. *)
Fixpoint drop_prefix (p s : string) : option string :=
  match p with
  | EmptyString => Some s
  | String a p' =>
      match s with
      | EmptyString => None
      | String b s' => if Ascii.eqb a b then drop_prefix p' s' else None
      end
  end.

Fixpoint lstrip (s : string) : string :=
  match s with
  | EmptyString => EmptyString
  | String c s' => if isspace c then lstrip s' else s
  end.

Fixpoint rstrip (s : string) : string :=
  match s with
  | EmptyString => EmptyString
  | String c s' =>
      match rstrip s' with
      | EmptyString => if isspace c then EmptyString else String c EmptyString
      | r => String c r
      end
  end.

(** [s.strip()]. *)
Definition strip (s : string) : string := rstrip (lstrip s).

(** [s.split(sep)] for a non-empty [sep]: the occurrences of [sep] are
    taken left to right and do not overlap.  [skip] counts the characters
    of a separator that has been recognised and is still being passed. *)
Fixpoint split_from (sep : string) (skip : nat) (s : string) : list string :=
  match s with
  | EmptyString => [EmptyString]
  | String c s' =>
      match skip with
      | S k => split_from sep k s'
      | O =>
          if startswith sep s
          then EmptyString :: split_from sep (String.length sep - 1) s'
          else match split_from sep 0 s' with
               | seg :: rest => String c seg :: rest
               | [] => [String c EmptyString]
               end
      end
  end.

Definition split (sep s : string) : list string := split_from sep 0 s.

(** [str(n)] for a non-negative [int]. *)
Definition str_of_nat (n : nat) : string :=
  DecimalString.NilEmpty.string_of_uint (Nat.to_uint n).

Definition digit_char (n : Z) : ascii := ascii_of_N (Z.to_N (48 + n mod 10)).

(** ["%02d" % n] and ["%04d" % n], for [0 <= n] of at most that many digits. *)
Definition pad2 (n : Z) : string :=
  String (digit_char (n / 10)) (String (digit_char n) EmptyString).

Definition pad4 (n : Z) : string :=
  String (digit_char (n / 1000)) (String (digit_char (n / 100))
    (String (digit_char (n / 10)) (String (digit_char n) EmptyString))).

(** [s1 < s2]: the order of the first differing code point, a proper
    prefix being smaller. *)
Fixpoint str_lt (s1 s2 : string) : bool :=
  match s1, s2 with
  | _, EmptyString => false
  | EmptyString, String _ _ => true
  | String a s1', String b s2' =>
      if code a <? code b then true
      else if code b <? code a then false
      else str_lt s1' s2'
  end.

End PyStr.

(** ** Python's [datetime], restricted to whole days *)

Module PyDatetime.
Import PyStr.

Definition MINYEAR : Z := 1.
Definition MAXYEAR : Z := 9999.
Definition MAXORDINAL : Z := 3652059.

Definition DAYS_IN_MONTH : list Z :=
  [-1; 31; 28; 31; 30; 31; 30; 31; 31; 30; 31; 30; 31].

Definition DAYS_BEFORE_MONTH : list Z :=
  [-1; 0; 31; 59; 90; 120; 151; 181; 212; 243; 273; 304; 334].

(** [t[i]]; every index the script reaches is a month from 1 to 12. *)
Definition tbl (t : list Z) (i : Z) : Z := nth (Z.to_nat i) t (-1).

Definition is_leap (year : Z) : bool :=
  (year mod 4 =? 0) && (negb (year mod 100 =? 0) || (year mod 400 =? 0)).

Definition days_before_year (year : Z) : Z :=
  let y := year - 1 in
  y * 365 + y / 4 - y / 100 + y / 400.

Definition days_in_month (year month : Z) : Z :=
  if (month =? 2) && is_leap year then 29 else tbl DAYS_IN_MONTH month.

Definition days_before_month (year month : Z) : Z :=
  tbl DAYS_BEFORE_MONTH month + (if (2 <? month) && is_leap year then 1 else 0).

Definition ymd2ord (year month day : Z) : Z :=
  days_before_year year + days_before_month year month + day.

Definition DI400Y : Z := Eval cbv in days_before_year 401.
Definition DI100Y : Z := Eval cbv in days_before_year 101.
Definition DI4Y : Z := Eval cbv in days_before_year 5.

Definition ord2ymd (n : Z) : Z * Z * Z :=
  let n := n - 1 in
  let n400 := n / DI400Y in
  let n := n mod DI400Y in
  let year := n400 * 400 + 1 in
  let n100 := n / DI100Y in
  let n := n mod DI100Y in
  let n4 := n / DI4Y in
  let n := n mod DI4Y in
  let n1 := n / 365 in
  let n := n mod 365 in
  let year := year + (n100 * 100 + n4 * 4 + n1) in
  if (n1 =? 4) || (n100 =? 4) then (year - 1, 12, 31)
  else
    let leapyear := (n1 =? 3) && (negb (n4 =? 24) || (n100 =? 3)) in
    let month := Z.shiftr (n + 50) 5 in
    let preceding :=
      tbl DAYS_BEFORE_MONTH month + (if (2 <? month) && leapyear then 1 else 0) in
    if n <? preceding then
      let month := month - 1 in
      let preceding :=
        preceding
        - (tbl DAYS_IN_MONTH month + (if (month =? 2) && leapyear then 1 else 0)) in
      (year, month, n - preceding + 1)
    else (year, month, n - preceding + 1).

(** The fields of a [datetime]; hour, minute, second and microsecond are
    zero for every value the script builds. *)
Record datetime : Type := mkdt { year : Z; month : Z; day : Z }.

Definition toordinal (d : datetime) : Z :=
  ymd2ord (year d) (month d) (day d).

Definition fromordinal (n : Z) : datetime :=
  let '(y, m, d) := ord2ymd n in mkdt y m d.

(** [datetime(y, m, d)]: the constructor checks its fields. *)
Definition check_date_fields (y m d : Z) : bool :=
  (MINYEAR <=? y) && (y <=? MAXYEAR) && (1 <=? m) && (m <=? 12)
  && (1 <=? d) && (d <=? days_in_month y m).

Definition valid (d : datetime) : Prop :=
  check_date_fields (year d) (month d) (day d) = true.

(** [d + timedelta(days=k)]. *)
Definition add_days (d : datetime) (k : Z) : result datetime :=
  let o := toordinal d + k in
  if (0 <? o) && (o <=? MAXORDINAL) then Ok (fromordinal o)
  else Raise OverflowError.

(** [d - timedelta(days=k)] is [d + (-timedelta(days=k))]. *)
Definition sub_days (d : datetime) (k : Z) : result datetime :=
  add_days d (- k).

(** [d.weekday()]: Monday is 0, Sunday is 6. *)
Definition weekday (d : datetime) : Z := (toordinal d + 6) mod 7.

(** [a <= b]: the tuples of fields are compared lexicographically. *)
Definition dt_le (a b : datetime) : bool :=
  if year a <? year b then true
  else if year b <? year a then false
  else if month a <? month b then true
  else if month b <? month a then false
  else day a <=? day b.

(** [datetime.strptime(s, '%Y%m%d')].  The directives compile to the regex
    [(\d\d\d\d)(1[0-2]|0[1-9]|[1-9])(3[01]|[12]\d|0[1-9]|[1-9]| [1-9])],
    matched at the start of [s]; text left over and fields that are no date
    both raise [ValueError].  On eight digits the only match that leaves
    nothing over takes four, two and two of them, and a month or day it
    rejects is also rejected by the constructor's check.  The script only
    passes it the eight digits captured by [search_date]; the definition
    below follows the function on such texts and answers [ValueError] on
    every other text, where the function itself may find a date. *)
Definition digit_val (c : ascii) : Z := code c - 48.

Definition strptime (s : string) : result datetime :=
  match s with
  | String a (String b (String c (String d (String e (String f
      (String g (String h EmptyString))))))) =>
      if forallb isdigit [a; b; c; d; e; f; g; h] then
        let y := 1000 * digit_val a + 100 * digit_val b
                 + 10 * digit_val c + digit_val d in
        let m := 10 * digit_val e + digit_val f in
        let dd := 10 * digit_val g + digit_val h in
        if check_date_fields y m dd then Ok (mkdt y m dd)
        else Raise ValueError
      else Raise ValueError
  | _ => Raise ValueError
  end.

(** [d.strftime('%Y-%m-%d')], for a year of four digits. *)
Definition strftime (d : datetime) : string :=
  (pad4 (year d) ++ "-" ++ pad2 (month d) ++ "-" ++ pad2 (day d))%string.

End PyDatetime.

(** Names for two quantities the calendar facts are stated with. *)
Module PyDatetimeAux.
Import PyDatetime.

Definition days_in_year (y : Z) : Z := if is_leap y then 366 else 365.

(** The month and day that [ord2ymd] derives from the zero-based day of the
    year [n] and the leap flag: the tail of its body, named. *)
Definition month_day (leapyear : bool) (n : Z) : Z * Z :=
  let month := Z.shiftr (n + 50) 5 in
  let preceding :=
    tbl DAYS_BEFORE_MONTH month + (if (2 <? month) && leapyear then 1 else 0) in
  if n <? preceding then
    let month := month - 1 in
    let preceding :=
      preceding
      - (tbl DAYS_IN_MONTH month + (if (month =? 2) && leapyear then 1 else 0)) in
    (month, n - preceding + 1)
  else (month, n - preceding + 1).

Definition month_day_ok (leapyear : bool) (n : Z) : bool :=
  let '(m, d) := month_day leapyear n in
  (1 <=? m) && (m <=? 12) && (1 <=? d)
  && (d <=? (if (m =? 2) && leapyear then 29 else tbl DAYS_IN_MONTH m))
  && (tbl DAYS_BEFORE_MONTH m + (if (2 <? m) && leapyear then 1 else 0) + d
      =? n + 1).

End PyDatetimeAux.


(** ** The regular expressions of the script *)

Module PyRe.
Import PyStr.

(** [.*]: the longest run of characters other than a line feed. *)
Fixpoint dot_star (s : string) : string :=
  match s with
  | EmptyString => EmptyString
  | String c s' => if code c =? 10 then EmptyString else String c (dot_star s')
  end.

(** [re.search] for the pattern [SUMMARY:] followed by the group [.*]:
    group 1 of the leftmost match. *)
Fixpoint search_summary (evt : string) : option string :=
  match drop_prefix "SUMMARY:" evt with
  | Some rest => Some (dot_star rest)
  | None =>
      match evt with
      | EmptyString => None
      | String _ evt' => search_summary evt'
      end
  end.

(** [\d{k}] at the start of [s]. *)
Fixpoint digits (k : nat) (s : string) : option string :=
  match k with
  | O => Some EmptyString
  | S k' =>
      match s with
      | EmptyString => None
      | String c s' =>
          if isdigit c then option_map (String c) (digits k' s') else None
      end
  end.

Definition colon_digits (s : string) : option string :=
  match drop_prefix ":" s with
  | Some r => digits 8 r
  | None => None
  end.

(** [tag(?:;VALUE=DATE)?:(\d{8})] anchored at the start of [s]: the
    optional group is tried first and given up when the rest fails. *)
Definition match_date_at (tag s : string) : option string :=
  match drop_prefix tag s with
  | None => None
  | Some r =>
      match drop_prefix ";VALUE=DATE" r with
      | Some r' =>
          match colon_digits r' with
          | Some g => Some g
          | None => colon_digits r
          end
      | None => colon_digits r
      end
  end.

(** [re.search(tag + r'(?:;VALUE=DATE)?:(\d{8})', evt)]: group 1 of the
    leftmost match. *)
Fixpoint search_date (tag evt : string) : option string :=
  match match_date_at tag evt with
  | Some g => Some g
  | None =>
      match evt with
      | EmptyString => None
      | String _ evt' => search_date tag evt'
      end
  end.

End PyRe.

(** ** The script: [parse_ics] and the report driver *)

(** The dictionary appended to [results]. *)
Record ShiftRecord : Type := mkrec {
  date : string;
  day : string;
  name : string;
  shift : string
}.

Definition MIGRATE_DIR : string := "../../migrate".

(** Lines 67-77: the [while current <= end_date] loop, unrolled at most
    [fuel] times. *)
Fixpoint weekend_loop (fuel : nat) (summary shift_name : string)
    (end_date current : PyDatetime.datetime) (results : list ShiftRecord)
    : result (list ShiftRecord) :=
  match fuel with
  | O => OutOfFuel
  | S fuel' =>
      if PyDatetime.dt_le current end_date then
        let dow := PyDatetime.weekday current in
        let results :=
          if (dow =? 5) || (dow =? 6) then
            results ++ [ {| date := PyDatetime.strftime current;
                            day := if dow =? 6 then "Sun" else "Sat";
                            name := summary;
                            shift := shift_name |} ]
          else results in
        current' <- PyDatetime.add_days current 1 ;;
        weekend_loop fuel' summary shift_name end_date current' results
      else Ok results
  end.

(** One more than the number of days from [current] to [end_date]. *)
Definition loop_fuel (end_date current : PyDatetime.datetime) : nat :=
  S (Z.to_nat (PyDatetime.toordinal end_date - PyDatetime.toordinal current + 1)).

(** Lines 62-65: the last day of the range. *)
Definition effective_end (start_date : PyDatetime.datetime)
    (end_m : option string) : result PyDatetime.datetime :=
  match end_m with
  | Some end_str =>
      e <- PyDatetime.strptime end_str ;; PyDatetime.sub_days e 1
  | None => Ok start_date
  end.

(** Lines 38-77: the body of [for evt in events[1:]]; [Ok results] unchanged
    is what [continue] leaves behind. *)
Definition process_block (shift_name : string) (results : list ShiftRecord)
    (evt : string) : result (list ShiftRecord) :=
  let summary_m := PyRe.search_summary evt in
  let start_m := PyRe.search_date "DTSTART" evt in
  let end_m := PyRe.search_date "DTEND" evt in
  match summary_m, start_m with
  | Some summary_g, Some start_str =>
      let summary := PyStr.strip summary_g in
      if PyStr.contains "OOO" summary || PyStr.contains "+" summary
      then Ok results
      else
        match PyDatetime.strptime start_str with
        | Raise ValueError => Ok results
        | Raise e => Raise e
        | OutOfFuel => OutOfFuel
        | Ok start_date =>
            if negb (PyDatetime.year start_date =? 2026) then Ok results
            else if 2 <? PyDatetime.month start_date then Ok results
            else
              end_date <- effective_end start_date end_m ;;
              weekend_loop (loop_fuel end_date start_date) summary shift_name
                end_date start_date results
        end
  | _, _ => Ok results
  end.

Fixpoint for_each_event (shift_name : string) (results : list ShiftRecord)
    (events : list string) : result (list ShiftRecord) :=
  match events with
  | [] => Ok results
  | evt :: rest =>
      results' <- process_block shift_name results evt ;;
      for_each_event shift_name results' rest
  end.

(** Lines 32-80 without the log lines: from the text of the file to the
    returned list. *)
Definition parse_content (content shift_name : string)
    : result (list ShiftRecord) :=
  let events := PyStr.split "BEGIN:VEVENT" content in
  for_each_event shift_name [] (tl events).

(** *** Sorting: [all_ops.sort(key=lambda x: (x['date'], x['shift']))] *)

Definition sort_key (x : ShiftRecord) : string * string := (date x, shift x).

(** [a < b] on pairs of strings: the first components decide unless they
    are equal. *)
Definition tuple_lt (a b : string * string) : bool :=
  if String.eqb (fst a) (fst b) then PyStr.str_lt (snd a) (snd b)
  else PyStr.str_lt (fst a) (fst b).

(** [list.sort] is stable, so its result is the one stable arrangement by
    key; insertion from the right computes it. *)
Fixpoint insert_by_key (x : ShiftRecord) (l : list ShiftRecord)
    : list ShiftRecord :=
  match l with
  | [] => [x]
  | y :: l' =>
      if tuple_lt (sort_key y) (sort_key x) then y :: insert_by_key x l'
      else x :: l
  end.

Fixpoint sort_by_key (l : list ShiftRecord) : list ShiftRecord :=
  match l with
  | [] => []
  | x :: l' => insert_by_key x (sort_by_key l')
  end.

(** *** Files and standard output *)

(** What the script can observe of a path: nothing there, something that
    cannot be read as text (with the message of the exception), or a text
    file, with the text [f.read()] returns. *)
Inductive file_state : Type :=
| Absent
| Unreadable (err : string)
| Readable (content : string).

(** A computation that prints: standard output is threaded as the list of
    the [print] calls made so far. *)
Definition IO (A : Type) : Type := list string -> result A * list string.

Definition io_ret {A : Type} (a : A) : IO A := fun out => (Ok a, out).

Definition io_bind {A B : Type} (m : IO A) (k : A -> IO B) : IO B :=
  fun out =>
    match m out with
    | (Ok a, out') => k a out'
    | (Raise e, out') => (Raise e, out')
    | (OutOfFuel, out') => (OutOfFuel, out')
    end.

Definition io_lift {A : Type} (r : result A) : IO A := fun out => (r, out).

Notation "x <<- m ;; k" := (io_bind m (fun x => k))
  (at level 61, m at next level, right associativity).
Notation "m ;;; k" := (io_bind m (fun _ => k))
  (at level 61, right associativity).

Definition print (line : string) : IO unit := fun out => (Ok tt, out ++ [line]).

Definition log (msg : string) : IO unit := print ("[DEBUG] " ++ msg).

(** [posixpath.join(a, *p)]. *)
Fixpoint endswith_slash (s : string) : bool :=
  match s with
  | EmptyString => false
  | String c EmptyString => Ascii.eqb c "/"
  | String _ s' => endswith_slash s'
  end.

Definition join_step (path b : string) : string :=
  if PyStr.startswith "/" b then b
  else if String.eqb path "" || endswith_slash path then (path ++ b)%string
  else (path ++ "/" ++ b)%string.

Definition path_join (a : string) (p : list string) : string :=
  fold_left join_step p a.

Definition LF : string := String "010" EmptyString.

(** The line printed for a record. *)
Definition format_row (r : ShiftRecord) : string :=
  (date r ++ " | " ++ day r ++ " | " ++ shift r ++ "    | " ++ name r)%string.

Fixpoint print_rows (rows : list ShiftRecord) : IO unit :=
  match rows with
  | [] => io_ret tt
  | r :: rest => print (format_row r) ;;; print_rows rest
  end.

Section Script.

(** [os.path.dirname(__file__)] and the file system the script runs on. *)
Variable script_dir : string.
Variable fs : string -> file_state.

Definition path_exists (path : string) : bool :=
  match fs path with
  | Absent => false
  | _ => true
  end.

(** Lines 24-80: from [log(f"Reading {filename}")] on. *)
Definition read_and_parse (file_path filename shift_name : string)
    : IO (list ShiftRecord) :=
  log ("Reading " ++ filename) ;;;
  match fs file_path with
  | Readable content =>
      let events := PyStr.split "BEGIN:VEVENT" content in
      log ("Found " ++ PyStr.str_of_nat (List.length events) ++ " event blocks") ;;;
      results <<- io_lift (for_each_event shift_name [] (tl events)) ;;
      log ("-> Extracted " ++ PyStr.str_of_nat (List.length results)
           ++ " weekend shifts") ;;;
      io_ret results
  | Unreadable err =>
      log ("Error reading file: " ++ err) ;;; io_ret []
  | Absent =>
      log ("Error reading file: [Errno 2] No such file or directory: '"
           ++ file_path ++ "'") ;;;
      io_ret []
  end.

Definition parse_ics (filename shift_name : string) : IO (list ShiftRecord) :=
  let file_path := path_join script_dir [MIGRATE_DIR; filename] in
  if negb (path_exists file_path) then
    log ("File not found: " ++ file_path) ;;;
    let file_path :=
      path_join "/Users/bishwash/Documents/GitHub/ShiftPlanner/migrate"
        [filename] in
    if negb (path_exists file_path) then
      log ("Still not found: " ++ file_path) ;;; io_ret []
    else read_and_parse file_path filename shift_name
  else read_and_parse file_path filename shift_name.

(** Lines 82-92: the module-level code. *)
Definition driver : IO unit :=
  print "Starting analysis..." ;;;
  am <<- parse_ics "AMR AM Analysts.ics" "AM" ;;
  pm <<- parse_ics "AMR PM Analysts.ics" "PM" ;;
  let all_ops := sort_by_key (([] ++ am) ++ pm) in
  print (LF ++ "Date       | Day | Shift | Name") ;;;
  print "-----------|-----|-------|------" ;;;
  print_rows all_ops.

(** A run of the script: its outcome and everything it printed. *)
Definition run : result unit * list string := driver [].

End Script.

(** ** Vocabulary of the specification *)

(** The English short names of the weekdays, Monday being 0. *)
Definition weekday_name (dow : Z) : string :=
  nth (Z.to_nat dow) ["Mon"; "Tue"; "Wed"; "Thu"; "Fri"; "Sat"; "Sun"] "".

(** Saturday or Sunday. *)
Definition is_weekend (d : PyDatetime.datetime) : bool :=
  (PyDatetime.weekday d =? 5) || (PyDatetime.weekday d =? 6).

(** The record the specification asks for on day [d]: the ISO date, the
    name of the weekday, the title and the shift tag. *)
Definition record_for (summary shift_name : string) (d : PyDatetime.datetime)
    : ShiftRecord :=
  {| date := PyDatetime.strftime d;
     day := weekday_name (PyDatetime.weekday d);
     name := summary;
     shift := shift_name |}.

(** The ordinals [a], [a+1], ..., [a+k-1]. *)
Definition ordinals_from (a : Z) (k : nat) : list Z :=
  map (fun i => a + Z.of_nat i) (seq 0 k).

(** [sub] occurs somewhere in [s]. *)
Definition occurs_in (sub s : string) : Prop :=
  exists pre post : string, s = (pre ++ sub ++ post)%string.

Fixpoint all_digits (s : string) : bool :=
  match s with
  | EmptyString => true
  | String c s' => PyStr.isdigit c && all_digits s'
  end.

(** [s] begins with a date field named [tag]: the name, optionally
    [;VALUE=DATE], a colon and eight digits [ds]. *)
Definition date_field_at (tag ds s : string) : Prop :=
  String.length ds = 8%nat /\ all_digits ds = true /\
  exists rest : string,
    s = (tag ++ ":" ++ ds ++ rest)%string
    \/ s = (tag ++ ";VALUE=DATE:" ++ ds ++ rest)%string.

(** The block [evt] has a date field named [tag] somewhere. *)
Definition has_date_field (tag evt : string) : Prop :=
  exists pre ds s : string,
    evt = (pre ++ s)%string /\ date_field_at tag ds s.

(** The title passes the exclusion filter. *)
Definition title_kept (summary : string) : Prop :=
  ~ occurs_in "OOO" summary /\ ~ occurs_in "+" summary.

(** January or February of 2026. *)
Definition in_window (d : PyDatetime.datetime) : Prop :=
  PyDatetime.year d = 2026 /\ PyDatetime.month d <= 2.

(** The Saturdays and Sundays from [start] to [last], both included, in
    calendar order. *)
Definition weekend_days (start last : PyDatetime.datetime)
    : list PyDatetime.datetime :=
  filter is_weekend
    (map PyDatetime.fromordinal
       (ordinals_from (PyDatetime.toordinal start)
          (Z.to_nat (PyDatetime.toordinal last - PyDatetime.toordinal start + 1)))).

(** The calendar day before [d], when there is one. *)
Definition yesterday (d : PyDatetime.datetime) : option PyDatetime.datetime :=
  let '(PyDatetime.mkdt y m dd) := d in
  if 1 <? dd then Some (PyDatetime.mkdt y m (dd - 1))
  else if 1 <? m
       then Some (PyDatetime.mkdt y (m - 1) (PyDatetime.days_in_month y (m - 1)))
       else if 1 <? y then Some (PyDatetime.mkdt (y - 1) 12 31)
            else None.

(** ** Sample inputs *)

(** The text of an event block, as [split] leaves it, from its lines. *)
Definition sample_block (lines : list string) : string :=
  (LF ++ String.concat LF lines ++ LF ++ "END:VEVENT" ++ LF)%string.

(** A calendar file with the given event blocks. *)
Definition sample_file (blocks : list (list string)) : string :=
  ("BEGIN:VCALENDAR" ++ LF
   ++ String.concat "" (map (fun b => "BEGIN:VEVENT" ++ sample_block b) blocks)
   ++ "END:VCALENDAR" ++ LF)%string.

Definition block_fri_to_tue : string :=
  sample_block ["SUMMARY: Alice "; "DTSTART;VALUE=DATE:20260102";
                "DTEND;VALUE=DATE:20260106"].

Definition block_fri_only : string :=
  sample_block ["SUMMARY: Alice "; "DTSTART;VALUE=DATE:20260102"].

Definition block_sat_end_same_day : string :=
  sample_block ["SUMMARY:Alice"; "DTSTART:20260103"; "DTEND:20260103"].

Definition block_sat_end_min : string :=
  sample_block ["SUMMARY:Alice"; "DTSTART:20260103"; "DTEND:00010101"].

Definition block_sat_end_feb30 : string :=
  sample_block ["SUMMARY:Alice"; "DTSTART:20260103"; "DTEND:20260230"].

Definition block_start_feb30 : string :=
  sample_block ["SUMMARY:Alice"; "DTSTART:20260230"; "DTEND:20260301"].

Definition block_ooo : string :=
  sample_block ["SUMMARY:Alice OOO"; "DTSTART:20260103"; "DTEND:20260105"].

Definition block_plus : string :=
  sample_block ["SUMMARY:Alice + Bob"; "DTSTART:20260103"; "DTEND:20260105"].

Definition block_march : string :=
  sample_block ["SUMMARY:Alice"; "DTSTART:20260307"; "DTEND:20260309"].

Definition block_2025 : string :=
  sample_block ["SUMMARY:Alice"; "DTSTART:20250104"; "DTEND:20250106"].

Definition block_no_summary : string :=
  sample_block ["DTSTART:20260103"; "DTEND:20260105"].

Definition block_no_start : string :=
  sample_block ["SUMMARY:Alice"; "DTEND:20260105"].

(** A file whose first event has an end date that is no calendar date and
    whose second event is well formed. *)
Definition file_end_feb30 : string :=
  sample_file [["SUMMARY:Alice"; "DTSTART:20260103"; "DTEND:20260230"];
               ["SUMMARY:Bob"; "DTSTART:20260110"; "DTEND:20260112"]].

(** The same with the malformed date in the start position. *)
Definition file_start_feb30 : string :=
  sample_file [["SUMMARY:Alice"; "DTSTART:20260230"; "DTEND:20260301"];
               ["SUMMARY:Bob"; "DTSTART:20260110"; "DTEND:20260112"]].

Definition file_feb_to_march : string :=
  sample_file [["SUMMARY:Alice"; "DTSTART:20260228"; "DTEND:20260309"]].

(** A file system holding one text file. *)
Definition fs_single (path content : string) : string -> file_state :=
  fun p => if String.eqb p path then Readable content else Absent.

Definition sample_dir : string := "/repo/backend/scripts".

Definition sample_am_path : string :=
  "/repo/backend/scripts/../../migrate/AMR AM Analysts.ics".

(** The record [r] is dated in January or February 2026. *)
Definition dated_in_window (r : ShiftRecord) : Prop :=
  exists d : PyDatetime.datetime,
    PyDatetime.valid d /\ date r = PyDatetime.strftime d /\ in_window d.

(** The record [r] is for a Saturday or Sunday and says which. *)
Definition weekend_labelled (r : ShiftRecord) : Prop :=
  exists d : PyDatetime.datetime,
    PyDatetime.valid d /\ date r = PyDatetime.strftime d
    /\ ((PyDatetime.weekday d = 5 /\ day r = "Sat")
        \/ (PyDatetime.weekday d = 6 /\ day r = "Sun")).

(** The record [r] is for a Saturday or Sunday, labelled as such, on or
    after a start date that lies in January or February 2026. *)
Definition weekend_from_window (shift_name : string) (r : ShiftRecord) : Prop :=
  exists start_date d : PyDatetime.datetime,
    PyDatetime.valid start_date
    /\ PyDatetime.year start_date = 2026
    /\ (PyDatetime.month start_date = 1 \/ PyDatetime.month start_date = 2)
    /\ PyDatetime.valid d
    /\ PyDatetime.dt_le start_date d = true
    /\ date r = PyDatetime.strftime d
    /\ ((PyDatetime.weekday d = 5 /\ day r = "Sat")
        \/ (PyDatetime.weekday d = 6 /\ day r = "Sun"))
    /\ shift r = shift_name.

(** ** The order of the report *)

(** The lexicographic order of strings by code point: a proper prefix comes
    first, otherwise the first differing character decides. *)
Inductive lex_lt : string -> string -> Prop :=
| lex_lt_nil (c : ascii) (s : string) : lex_lt EmptyString (String c s)
| lex_lt_head (a b : ascii) (s t : string) :
    PyStr.code a < PyStr.code b -> lex_lt (String a s) (String b t)
| lex_lt_tail (a : ascii) (s t : string) :
    lex_lt s t -> lex_lt (String a s) (String a t).

(** The order of the pairs (ISO date, shift tag): the dates decide, equal
    dates are ordered by tag. *)
Definition pair_le (a b : string * string) : Prop :=
  lex_lt (fst a) (fst b)
  \/ (fst a = fst b /\ (lex_lt (snd a) (snd b) \/ snd a = snd b)).

Definition key_le (x y : ShiftRecord) : Prop :=
  pair_le (sort_key x) (sort_key y).

Definition TABLE_HEADER : list string :=
  [(LF ++ "Date       | Day | Shift | Name")%string;
   "-----------|-----|-------|------"].

Definition FALLBACK_DIR : string :=
  "/Users/bishwash/Documents/GitHub/ShiftPlanner/migrate".

(** The two places [parse_ics] looks for [filename]. *)
Definition primary_path (script_dir filename : string) : string :=
  path_join script_dir [MIGRATE_DIR; filename].

Definition fallback_path (filename : string) : string :=
  path_join FALLBACK_DIR [filename].


Definition AM_FILE : string := "AMR AM Analysts.ics".
Definition PM_FILE : string := "AMR PM Analysts.ics".


(** A file system with both calendars, each with one event over the first
    weekend of January 2026; the afternoon one is found at the fallback
    place. *)
Definition fs_am_pm : string -> file_state :=
  fun p =>
    if String.eqb p (primary_path sample_dir AM_FILE)
    then Readable (sample_file [["SUMMARY:Alice"; "DTSTART:20260103";
                                 "DTEND:20260105"]])
    else if String.eqb p (fallback_path PM_FILE)
    then Readable (sample_file [["SUMMARY:Bob"; "DTSTART:20260102";
                                 "DTEND:20260104"]])
    else Absent.


(** ** Further vocabulary *)

(** What one event block contributes: the loop body run on no results. *)
Definition block_records (shift_name evt : string) : result (list ShiftRecord) :=
  process_block shift_name [] evt.

(** The event blocks of a file: what [events[1:]] holds. *)
Definition event_blocks (content : string) : list string :=
  tl (PyStr.split "BEGIN:VEVENT" content).

(** The block [evt] passes every filter, with trimmed title [summary] and
    start date [start_date]: it reaches line 62. *)
Definition kept_block (evt summary : string)
    (start_date : PyDatetime.datetime) : Prop :=
  exists summary_g start_str : string,
    PyRe.search_summary evt = Some summary_g
    /\ summary = PyStr.strip summary_g
    /\ title_kept summary
    /\ PyRe.search_date "DTSTART" evt = Some start_str
    /\ PyDatetime.strptime start_str = Ok start_date
    /\ in_window start_date.

Definition block_end_min : string :=
  sample_block ["SUMMARY:Alice"; "DTSTART:20260103"; "DTEND:00010101"].

Definition file_two_events : string :=
  sample_file [["SUMMARY:Alice"; "DTSTART:20260103"; "DTEND:20260105"];
               ["SUMMARY:Bob"; "DTSTART:20260110"; "DTEND:20260112"]].

Definition first_char (s : string) : option ascii :=
  match s with
  | EmptyString => None
  | String c _ => Some c
  end.

Fixpoint last_char (s : string) : option ascii :=
  match s with
  | EmptyString => None
  | String c EmptyString => Some c
  | String _ s' => last_char s'
  end.

(** A title as the report shows it: no white space at either end, no line
    feed inside, and neither exclusion marker. *)
Definition clean_title (s : string) : Prop :=
  (forall c, first_char s = Some c -> PyStr.isspace c = false)
  /\ (forall c, last_char s = Some c -> PyStr.isspace c = false)
  /\ (forall c, In c (list_ascii_of_string s) -> PyStr.code c <> 10)
  /\ ~ occurs_in "OOO" s
  /\ ~ occurs_in "+" s.

Definition file_padded_title : string :=
  sample_file [["SUMMARY:   Alice Smith   "; "DTSTART:20260103"]].

(** The date strings of [x] and [y] are in strict lexicographic order. *)
Definition date_before (x y : ShiftRecord) : Prop := lex_lt (date x) (date y).

Definition block_two_weekends : string :=
  sample_block ["SUMMARY:Alice"; "DTSTART:20260103"; "DTEND:20260112"].

(** A line printed by [log]. *)
Definition is_debug_line (line : string) : Prop :=
  PyStr.startswith "[DEBUG] " line = true.

(** A file system whose morning calendar is there but cannot be read, while
    a readable copy sits at the fallback place. *)
Definition fs_unreadable_primary : string -> file_state :=
  fun p =>
    if String.eqb p (primary_path sample_dir AM_FILE)
    then Unreadable "[Errno 13] Permission denied"
    else if String.eqb p (fallback_path AM_FILE)
    then Readable file_two_events
    else Absent.

Definition EVENT_MARKER : string := "BEGIN:VEVENT".

Definition file_no_event : string :=
  ("BEGIN:VCALENDAR" ++ LF ++ "SUMMARY:Alice" ++ LF ++ "DTSTART:20260103" ++ LF
   ++ "END:VCALENDAR" ++ LF)%string.

(** [evt] holds [needle] at the offset [String.length pre], followed by
    [tail], and at no earlier offset does [evt] satisfy [hit]. *)
Definition leftmost (hit : string -> Prop) (evt pre s : string) : Prop :=
  evt = (pre ++ s)%string
  /\ forall pre' s' : string,
       evt = (pre' ++ s')%string ->
       (String.length pre' < String.length pre)%nat -> ~ hit s'.

(** [g] runs to the end of its line: it holds no line feed and what
    follows it is nothing or begins with one. *)
Definition rest_of_line (g post : string) : Prop :=
  (forall c, In c (list_ascii_of_string g) -> PyStr.code c <> 10)
  /\ (post = EmptyString
      \/ exists post' : string, post = (LF ++ post')%string).

Definition block_summary_inside : string :=
  sample_block ["DESCRIPTION:see X-SUMMARY:Night desk"; "SUMMARY:Alice";
                "DTSTART:20260103T090000Z"].

(** [x] and [y] have the same sort key. *)
Definition same_key (x y : ShiftRecord) : bool :=
  String.eqb (date x) (date y) && String.eqb (shift x) (shift y).

Definition block_sat_next_day : string :=
  sample_block ["SUMMARY:Alice"; "DTSTART;VALUE=DATE:20260103";
                "DTEND;VALUE=DATE:20260104"].

Definition block_two_weeks_from_wed : string :=
  sample_block ["SUMMARY:Alice"; "DTSTART:20260107"; "DTEND:20260121"].

(** [content] is the text [parse_ics] reads for [filename]: the file at the
    primary path, or the one at the fallback path when nothing is at the
    primary path. *)
Definition file_read (script_dir : string) (fs : string -> file_state)
    (filename content : string) : Prop :=
  fs (primary_path script_dir filename) = Readable content
  \/ (fs (primary_path script_dir filename) = Absent
      /\ fs (fallback_path filename) = Readable content).

(** The record [r] is a record of the event block [evt]: the block passes
    the filters, so that its start-date field parses to a date
    [start_date] of January or February 2026, and [r] is for a Saturday or
    a Sunday [d], labelled as such, from [start_date] to the effective last
    day of the block, with the title of the block and the shift tag. *)
Definition record_of_event (shift_name evt : string) (r : ShiftRecord)
    : Prop :=
  exists (summary : string) (start_date last d : PyDatetime.datetime),
    kept_block evt summary start_date
    /\ PyDatetime.year start_date = 2026
    /\ (PyDatetime.month start_date = 1 \/ PyDatetime.month start_date = 2)
    /\ effective_end start_date (PyRe.search_date "DTEND" evt) = Ok last
    /\ PyDatetime.valid d
    /\ PyDatetime.dt_le start_date d = true
    /\ PyDatetime.dt_le d last = true
    /\ date r = PyDatetime.strftime d
    /\ ((PyDatetime.weekday d = 5 /\ day r = "Sat")
        \/ (PyDatetime.weekday d = 6 /\ day r = "Sun"))
    /\ name r = summary
    /\ shift r = shift_name.

(** * Part II: properties *)

(** ** The calendar arithmetic of [datetime] *)

Module PyDatetimeFacts.
Import PyDatetime PyDatetimeAux.

Ltac zbool :=
  repeat match goal with
  | H : _ && _ = true |- _ => apply andb_prop in H; destruct H
  | H : (_ <=? _) = true |- _ => apply Z.leb_le in H
  | H : (_ <? _) = true |- _ => apply Z.ltb_lt in H
  | H : (_ =? _) = true |- _ => apply Z.eqb_eq in H
  | H : (_ <=? _) = false |- _ => apply Z.leb_gt in H
  | H : (_ <? _) = false |- _ => apply Z.ltb_ge in H
  | H : (_ =? _) = false |- _ => apply Z.eqb_neq in H
  end.

Ltac split_eqb :=
  repeat match goal with
  | |- context [?a =? ?b] => destruct (Z.eqb_spec a b)
  | |- context [?a <? ?b] => destruct (Z.ltb_spec a b)
  | |- context [?a <=? ?b] => destruct (Z.leb_spec a b)
  end.

Lemma days_before_year_succ (y : Z) :
  days_before_year (y + 1) = days_before_year y + days_in_year y.
Proof.
  unfold days_in_year, days_before_year, is_leap.
  replace (y + 1 - 1) with y by ring.
  split_eqb; cbn [andb orb negb]; Z.div_mod_to_equations; lia.
Qed.

Lemma days_before_year_mono (a b : Z) :
  a <= b -> days_before_year a <= days_before_year b.
Proof.
  unfold days_before_year. intros H. Z.div_mod_to_equations. lia.
Qed.

Lemma month_cases (m : Z) :
  1 <= m <= 12 ->
  m = 1 \/ m = 2 \/ m = 3 \/ m = 4 \/ m = 5 \/ m = 6 \/
  m = 7 \/ m = 8 \/ m = 9 \/ m = 10 \/ m = 11 \/ m = 12.
Proof. lia. Qed.

Ltac each_month m H :=
  destruct (month_cases m H) as
    [->|[->|[->|[->|[->|[->|[->|[->|[->|[->|[->| ->]]]]]]]]]]].

(** Evaluate table look-ups and comparisons at literal months. *)
Ltac calc_tbl :=
  repeat match goal with
  | |- context [tbl ?t ?k] =>
      let v := eval vm_compute in (tbl t k) in change (tbl t k) with v
  | H : context [tbl ?t ?k] |- _ =>
      let v := eval vm_compute in (tbl t k) in change (tbl t k) with v in H
  end;
  cbn [Z.eqb Z.ltb Z.leb Z.compare Pos.compare Pos.compare_cont Pos.eqb
       andb orb negb] in *.

Lemma doy_bounds (y m d : Z) :
  check_date_fields y m d = true ->
  1 <= days_before_month y m + d <= days_in_year y.
Proof.
  unfold check_date_fields. intros H. zbool.
  assert (Hm : 1 <= m <= 12) by lia.
  unfold days_before_month, days_in_month, days_in_year in *.
  each_month m Hm; destruct (is_leap y); calc_tbl; lia.
Qed.

Lemma doy_month_lt (y m1 d1 m2 d2 : Z) :
  1 <= m1 -> m1 < m2 -> m2 <= 12 ->
  d1 <= days_in_month y m1 -> 1 <= d2 ->
  days_before_month y m1 + d1 < days_before_month y m2 + d2.
Proof.
  intros H1 H12 H2 Hd1 Hd2.
  assert (Hm1 : 1 <= m1 <= 12) by lia.
  assert (Hm2 : 1 <= m2 <= 12) by lia.
  unfold days_before_month, days_in_month in *.
  each_month m1 Hm1; each_month m2 Hm2; try lia;
    destruct (is_leap y); calc_tbl; lia.
Qed.

Lemma toordinal_year_lt (a b : datetime) :
  valid a -> valid b -> year a < year b -> toordinal a < toordinal b.
Proof.
  intros Ha Hb Hlt.
  pose proof (doy_bounds _ _ _ Ha) as Da.
  pose proof (doy_bounds _ _ _ Hb) as Db.
  pose proof (days_before_year_succ (year a)) as Hs.
  pose proof (days_before_year_mono (year a + 1) (year b) ltac:(lia)) as Hmono.
  unfold toordinal, ymd2ord. lia.
Qed.

Lemma toordinal_month_lt (a b : datetime) :
  valid a -> valid b -> year a = year b -> month a < month b ->
  toordinal a < toordinal b.
Proof.
  unfold valid, check_date_fields. intros Ha Hb Hy Hm. zbool.
  unfold toordinal, ymd2ord. rewrite Hy in *.
  pose proof (doy_month_lt (year b) (month a) (day a) (month b) (day b)).
  lia.
Qed.

(** On valid dates the field-wise order is the order of the ordinals. *)
Lemma dt_le_toordinal (a b : datetime) :
  valid a -> valid b -> dt_le a b = (toordinal a <=? toordinal b).
Proof.
  intros Ha Hb. unfold dt_le.
  destruct (Z.ltb_spec (year a) (year b)) as [Hy|Hy].
  { pose proof (toordinal_year_lt a b Ha Hb Hy). symmetry. apply Z.leb_le. lia. }
  destruct (Z.ltb_spec (year b) (year a)) as [Hy'|Hy'].
  { pose proof (toordinal_year_lt b a Hb Ha Hy'). symmetry. apply Z.leb_gt. lia. }
  assert (Hyy : year a = year b) by lia.
  destruct (Z.ltb_spec (month a) (month b)) as [Hm|Hm].
  { pose proof (toordinal_month_lt a b Ha Hb Hyy Hm). symmetry. apply Z.leb_le. lia. }
  destruct (Z.ltb_spec (month b) (month a)) as [Hm'|Hm'].
  { pose proof (toordinal_month_lt b a Hb Ha (eq_sym Hyy) Hm').
    symmetry. apply Z.leb_gt. lia. }
  assert (Hmm : month a = month b) by lia.
  unfold toordinal, ymd2ord. rewrite Hyy, Hmm.
  destruct (Z.leb_spec (day a) (day b)); symmetry;
    [apply Z.leb_le | apply Z.leb_gt]; lia.
Qed.

Lemma toordinal_inj (a b : datetime) :
  valid a -> valid b -> toordinal a = toordinal b -> a = b.
Proof.
  intros Ha Hb E.
  pose proof (dt_le_toordinal a b Ha Hb) as Hab.
  pose proof (dt_le_toordinal b a Hb Ha) as Hba.
  rewrite E in Hab. rewrite E in Hba.
  rewrite Z.leb_refl in Hab, Hba.
  unfold dt_le in Hab, Hba.
  destruct a as [ya ma da], b as [yb mb db]; cbn in *.
  destruct (Z.ltb_spec ya yb), (Z.ltb_spec yb ya); try lia; try discriminate.
  destruct (Z.ltb_spec ma mb), (Z.ltb_spec mb ma); try lia; try discriminate.
  zbool. f_equal; lia.
Qed.

Lemma days_before_year_nonneg (y : Z) : 1 <= y -> 0 <= days_before_year y.
Proof.
  intros H. unfold days_before_year. Z.div_mod_to_equations. lia.
Qed.

(** The ordinal of a valid date is in range. *)
Lemma toordinal_range (d : datetime) :
  valid d -> 1 <= toordinal d <= MAXORDINAL.
Proof.
  intros Hv. pose proof (doy_bounds _ _ _ Hv) as Hd.
  unfold valid, check_date_fields, MINYEAR, MAXYEAR in Hv. zbool.
  pose proof (days_before_year_nonneg (year d) ltac:(lia)).
  pose proof (days_before_year_succ (year d)) as Hs.
  pose proof (days_before_year_mono (year d + 1) 10000 ltac:(lia)) as Hm.
  change (days_before_year 10000) with 3652059 in Hm.
  unfold toordinal, ymd2ord, MAXORDINAL. lia.
Qed.

Lemma month_day_sound (leapyear : bool) (n : Z) :
  0 <= n <= 364 -> month_day_ok leapyear n = true.
Proof.
  intros Hn.
  assert (H : forallb (fun k => month_day_ok leapyear (Z.of_nat k))
                (seq 0 365) = true)
    by (destruct leapyear; vm_compute; reflexivity).
  rewrite forallb_forall in H.
  specialize (H (Z.to_nat n)). rewrite Z2Nat.id in H by lia.
  apply H. apply in_seq. lia.
Qed.

Lemma ord2ymd_unfold (n : Z) :
  ord2ymd n =
  let n0 := n - 1 in
  let n400 := n0 / DI400Y in
  let r400 := n0 mod DI400Y in
  let n100 := r400 / DI100Y in
  let r100 := r400 mod DI100Y in
  let n4 := r100 / DI4Y in
  let r4 := r100 mod DI4Y in
  let n1 := r4 / 365 in
  let r1 := r4 mod 365 in
  let y := n400 * 400 + 1 + (n100 * 100 + n4 * 4 + n1) in
  if (n1 =? 4) || (n100 =? 4) then (y - 1, 12, 31)
  else
    let leapyear := (n1 =? 3) && (negb (n4 =? 24) || (n100 =? 3)) in
    let '(m, d) := month_day leapyear r1 in (y, m, d).
Proof.
  unfold ord2ymd, month_day. cbv zeta.
  destruct ((_ =? 4) || (_ =? 4)); [reflexivity|].
  match goal with |- context [if ?c then (_, _, _) else _] => destruct c end;
    reflexivity.
Qed.

(** [ord2ymd] inverts [ymd2ord]: an ordinal in range yields fields that
    pass the constructor's check and have that ordinal.  On the way the
    three assertions of the Python function are met: the remainder is zero
    in the year-end case, the leap flag is [is_leap] of the year, and the
    day is within the month. *)
Lemma ord2ymd_sound (n : Z) :
  1 <= n <= MAXORDINAL ->
  let '(y, m, d) := ord2ymd n in
  check_date_fields y m d = true /\ ymd2ord y m d = n.
Proof.
  intros Hn. rewrite ord2ymd_unfold. cbv zeta.
  unfold MAXORDINAL, DI400Y, DI100Y, DI4Y in *.
  set (n0 := n - 1).
  set (n400 := n0 / 146097). set (r400 := n0 mod 146097).
  set (n100 := r400 / 36524). set (r100 := r400 mod 36524).
  set (n4 := r100 / 1461). set (r4 := r100 mod 1461).
  set (n1 := r4 / 365). set (r1 := r4 mod 365).
  set (y := n400 * 400 + 1 + (n100 * 100 + n4 * 4 + n1)).
  assert (F : n0 = 146097 * n400 + 36524 * n100 + 1461 * n4 + 365 * n1 + r1
              /\ 0 <= n400 <= 24 /\ 0 <= n100 <= 4 /\ 0 <= n4 <= 24
              /\ 0 <= n1 <= 4 /\ 0 <= r1 <= 364
              /\ 36524 * n100 + 1461 * n4 + 365 * n1 + r1 < 146097
              /\ 1461 * n4 + 365 * n1 + r1 < 36524
              /\ 365 * n1 + r1 < 1461).
  { subst n400 r400 n100 r100 n4 r4 n1 r1 n0. Z.div_mod_to_equations. lia. }
  destruct F as (Hn0 & B400 & B100 & B4 & B1 & Br & S400 & S100 & S4).
  assert (Hy : y = 400 * n400 + 100 * n100 + 4 * n4 + n1 + 1) by (subst y; ring).
  clearbody n400 r400 n100 r100 n4 r4 n1 r1 y. subst n0.
  destruct ((n1 =? 4) || (n100 =? 4)) eqn:E.
  - assert (L : is_leap (y - 1) = true).
    { unfold is_leap. apply orb_prop in E.
      apply andb_true_iff. split.
      - apply Z.eqb_eq. destruct E; zbool; Z.div_mod_to_equations; lia.
      - apply orb_true_iff.
        destruct (Z.eqb_spec n100 4) as [e|ne].
        + right. apply Z.eqb_eq. Z.div_mod_to_equations. lia.
        + left. apply negb_true_iff. apply Z.eqb_neq.
          destruct E; zbool; Z.div_mod_to_equations; lia. }
    unfold check_date_fields, ymd2ord, days_in_month, days_before_month,
      days_before_year, MINYEAR, MAXYEAR.
    rewrite L. calc_tbl. apply orb_prop in E. split.
    + repeat (apply andb_true_iff; split); try reflexivity;
        apply Z.leb_le; destruct E; zbool; lia.
    + destruct E; zbool; Z.div_mod_to_equations; lia.
  - apply orb_false_iff in E. destruct E as [E1 E100]. zbool.
    set (leapyear := (n1 =? 3) && (negb (n4 =? 24) || (n100 =? 3))).
    assert (L : is_leap y = leapyear).
    { unfold is_leap, leapyear.
      destruct (Z.eqb_spec n1 3), (Z.eqb_spec n4 24), (Z.eqb_spec n100 3);
        cbn [andb orb negb]; split_eqb; cbn [andb orb negb];
        try reflexivity; exfalso; Z.div_mod_to_equations; lia. }
    pose proof (month_day_sound leapyear r1 Br) as Hmd.
    unfold month_day_ok in Hmd.
    destruct (month_day leapyear r1) as [m d]. zbool.
    unfold check_date_fields, ymd2ord, days_in_month, days_before_month,
      MINYEAR, MAXYEAR.
    rewrite L. split.
    + repeat (apply andb_true_iff; split); apply Z.leb_le; lia.
    + unfold days_before_year. Z.div_mod_to_equations. lia.
Qed.

Lemma fromordinal_valid (n : Z) :
  1 <= n <= MAXORDINAL -> valid (fromordinal n).
Proof.
  intros Hn. pose proof (ord2ymd_sound n Hn) as H.
  unfold valid, fromordinal. destruct (ord2ymd n) as [[y m] d]. apply H.
Qed.

Lemma toordinal_fromordinal (n : Z) :
  1 <= n <= MAXORDINAL -> toordinal (fromordinal n) = n.
Proof.
  intros Hn. pose proof (ord2ymd_sound n Hn) as H.
  unfold toordinal, fromordinal. destruct (ord2ymd n) as [[y m] d]. apply H.
Qed.

Lemma fromordinal_toordinal (d : datetime) :
  valid d -> fromordinal (toordinal d) = d.
Proof.
  intros Hv. pose proof (toordinal_range d Hv) as Hr.
  apply toordinal_inj; auto using fromordinal_valid, toordinal_fromordinal.
Qed.

(** Known values: Saturday 3 January 2026 and the two ends of the range. *)
Example calendar_anchors :
  toordinal (mkdt 2026 1 3) = 739619
  /\ weekday (mkdt 2026 1 3) = 5
  /\ fromordinal 1 = mkdt 1 1 1
  /\ fromordinal MAXORDINAL = mkdt 9999 12 31
  /\ fromordinal 739619 = mkdt 2026 1 3.
Proof. repeat split; reflexivity. Qed.

End PyDatetimeFacts.

(** ** The weekend loop *)

Section WeekendLoop.
Import PyDatetime PyDatetimeFacts.

Lemma ordinals_from_S (a : Z) (k : nat) :
  ordinals_from a (S k) = a :: ordinals_from (a + 1) k.
Proof.
  unfold ordinals_from. cbn [seq map]. f_equal.
  - lia.
  - rewrite <- seq_shift, map_map. apply map_ext. intros i. lia.
Qed.

Lemma in_ordinals_from (a : Z) (k : nat) (o : Z) :
  In o (ordinals_from a k) <-> a <= o < a + Z.of_nat k.
Proof.
  unfold ordinals_from. rewrite in_map_iff. split.
  - intros (i & <- & Hi). apply in_seq in Hi. lia.
  - intros H. exists (Z.to_nat (o - a)). split; [lia|]. apply in_seq. lia.
Qed.

Lemma NoDup_ordinals_from (a : Z) (k : nat) : NoDup (ordinals_from a k).
Proof.
  revert a. induction k as [|k IH]; intros a.
  - constructor.
  - rewrite ordinals_from_S. constructor; [|apply IH].
    rewrite in_ordinals_from. lia.
Qed.

Lemma weekend_record (summary shift_name : string) (d : datetime) :
  is_weekend d = true ->
  mkrec (strftime d) (if weekday d =? 6 then "Sun" else "Sat")
    summary shift_name
  = record_for summary shift_name d.
Proof.
  unfold is_weekend, record_for. intros H. f_equal.
  destruct (Z.eqb_spec (weekday d) 6) as [->|n6]; [reflexivity|].
  destruct (Z.eqb_spec (weekday d) 5) as [->|n5]; [reflexivity|].
  discriminate.
Qed.

(** The loop visits the ordinals from [current] to [end_date] in order and
    stops; [k] is the number of days left. *)
Lemma weekend_loop_run (summary shift_name : string) (end_date : datetime) :
  valid end_date -> toordinal end_date < MAXORDINAL ->
  forall (k : nat) (current : datetime) (results : list ShiftRecord)
         (fuel : nat),
    valid current ->
    Z.of_nat k = Z.max 0 (toordinal end_date - toordinal current + 1) ->
    (k < fuel)%nat ->
    weekend_loop fuel summary shift_name end_date current results
    = Ok (results
          ++ map (record_for summary shift_name)
               (filter is_weekend
                  (map fromordinal (ordinals_from (toordinal current) k)))).
Proof.
  intros Hve Hmax k.
  induction k as [|k IH]; intros current results fuel Hvc Hk Hf;
    (destruct fuel as [|fuel]; [lia|]); cbn [weekend_loop].
  - rewrite (dt_le_toordinal _ _ Hvc Hve).
    destruct (Z.leb_spec (toordinal current) (toordinal end_date)); [lia|].
    cbn. now rewrite app_nil_r.
  - rewrite (dt_le_toordinal _ _ Hvc Hve).
    destruct (Z.leb_spec (toordinal current) (toordinal end_date)); [|lia].
    pose proof (toordinal_range _ Hvc) as Hr.
    assert (Hn : 1 <= toordinal current + 1 <= MAXORDINAL) by lia.
    unfold add_days.
    replace ((0 <? toordinal current + 1)
             && (toordinal current + 1 <=? MAXORDINAL)) with true
      by (symmetry; apply andb_true_iff; split;
          [apply Z.ltb_lt | apply Z.leb_le]; lia).
    cbn [bind].
    rewrite IH;
      [ | apply fromordinal_valid; exact Hn
        | rewrite toordinal_fromordinal by exact Hn; lia
        | lia ].
    rewrite toordinal_fromordinal by exact Hn.
    rewrite ordinals_from_S. cbn [map filter].
    rewrite (fromordinal_toordinal _ Hvc).
    fold (is_weekend current).
    destruct (is_weekend current) eqn:W.
    + rewrite (weekend_record _ _ _ W). cbn [map].
      rewrite <- app_assoc. reflexivity.
    + reflexivity.
Qed.

End WeekendLoop.

(** ** Strings and the regular expressions *)

Section StringFacts.
Import PyStr PyRe.

Lemma append_assoc (a b c : string) :
  ((a ++ b) ++ c = a ++ (b ++ c))%string.
Proof. induction a as [|x a IH]; cbn; [reflexivity | now rewrite IH]. Qed.

Lemma append_nil_r (a : string) : (a ++ "" = a)%string.
Proof. induction a as [|x a IH]; cbn; [reflexivity | now rewrite IH]. Qed.

Lemma drop_prefix_Some (p s t : string) :
  drop_prefix p s = Some t <-> s = (p ++ t)%string.
Proof.
  revert s. induction p as [|a p IH]; intros s; cbn.
  - split; [now intros [= ->] | now intros ->].
  - destruct s as [|b s]; [split; discriminate|].
    destruct (Ascii.eqb_spec a b) as [->|ne].
    + rewrite IH. split; [now intros -> | now intros [= ->]].
    + split; [discriminate | intros [= e _]; now elim ne].
Qed.

Lemma drop_prefix_append (p t : string) : drop_prefix p (p ++ t) = Some t.
Proof. now apply drop_prefix_Some. Qed.

Lemma startswith_iff (p s : string) :
  startswith p s = true <-> exists t, s = (p ++ t)%string.
Proof.
  revert s. induction p as [|a p IH]; intros s; cbn.
  - split; [now exists s | reflexivity].
  - destruct s as [|b s]; [split; [discriminate | now intros [t [=]]]|].
    rewrite andb_true_iff, IH. split.
    + intros [e [t ->]]. apply Ascii.eqb_eq in e as ->. now exists t.
    + intros [t [= -> ->]]. split; [apply Ascii.eqb_refl | now exists t].
Qed.

Lemma contains_iff (sub s : string) :
  contains sub s = true <-> occurs_in sub s.
Proof.
  unfold occurs_in. induction s as [|c s IH].
  - cbn. rewrite orb_false_r, startswith_iff. split.
    + intros [t e]. now exists "", t.
    + intros (pre & post & e). destruct pre; [now exists post|discriminate].
  - cbn [contains]. rewrite orb_true_iff, IH, startswith_iff. split.
    + intros [[t e]|(pre & post & e)].
      * now exists "", t.
      * exists (String c pre), post. cbn. now rewrite e.
    + intros (pre & post & e). destruct pre as [|x pre].
      * left. now exists post.
      * right. injection e as _ e. now exists pre, post.
Qed.

Lemma search_summary_None (evt : string) :
  search_summary evt = None <-> ~ occurs_in "SUMMARY:" evt.
Proof.
  unfold occurs_in. induction evt as [|c evt IH].
  - cbn. split; [|reflexivity]. intros _ (pre & post & e).
    destruct pre; discriminate.
  - cbn [search_summary].
    destruct (drop_prefix "SUMMARY:" (String c evt)) as [rest|] eqn:D.
    + apply drop_prefix_Some in D. split; [discriminate|].
      intros H. elim H. now exists "", rest.
    + rewrite IH. split.
      * intros H (pre & post & e). destruct pre as [|x pre].
        -- assert (D' : drop_prefix "SUMMARY:" (String c evt) = Some post)
             by (apply drop_prefix_Some; exact e).
           congruence.
        -- injection e as _ e. apply H. now exists pre, post.
      * intros H (pre & post & e). apply H.
        exists (String c pre), post. cbn. now rewrite e.
Qed.

Lemma digits_Some (k : nat) (s g : string) :
  digits k s = Some g <->
  String.length g = k /\ all_digits g = true
  /\ exists rest, s = (g ++ rest)%string.
Proof.
  revert s g. induction k as [|k IH]; intros s g; cbn [digits].
  - split.
    + intros [= <-]. repeat split. now exists s.
    + intros (L & _ & _). destruct g; [reflexivity | discriminate].
  - destruct s as [|c s].
    + split; [discriminate|]. intros (L & _ & rest & e).
      destruct g; discriminate.
    + destruct (isdigit c) eqn:Dc.
      * destruct (digits k s) as [g'|] eqn:Dk; cbn [option_map].
        -- apply IH in Dk as (L & A & rest & ->). split.
           ++ intros [= <-]. cbn. rewrite Dc, A, L. repeat split.
              now exists rest.
           ++ intros (L' & A' & rest' & e). destruct g as [|x g]; [discriminate|].
              cbn in e, L', A'. injection e as -> e. injection L' as L'.
              apply andb_prop in A' as [_ A'].
              assert (Dk' : digits k (g' ++ rest) = Some g)
                by (apply IH; repeat split; auto; now exists rest').
              assert (Dk'' : digits k (g' ++ rest) = Some g')
                by (apply IH; repeat split; auto; now exists rest).
              congruence.
        -- split; [discriminate|]. intros (L' & A' & rest' & e).
           destruct g as [|x g]; [discriminate|].
           cbn in e, L', A'. injection e as -> e. injection L' as L'.
           apply andb_prop in A' as [_ A'].
           assert (Dk' : digits k s = Some g)
             by (apply IH; repeat split; auto; now exists rest').
           congruence.
      * split; [discriminate|]. intros (L' & A' & rest' & e).
        destruct g as [|x g]; [discriminate|].
        cbn in e, A'. injection e as -> e. rewrite Dc in A'. discriminate.
Qed.

Lemma colon_digits_Some (s g : string) :
  colon_digits s = Some g <->
  String.length g = 8%nat /\ all_digits g = true
  /\ exists rest, s = (":" ++ g ++ rest)%string.
Proof.
  unfold colon_digits. destruct (drop_prefix ":" s) as [r|] eqn:D.
  - apply drop_prefix_Some in D as ->. rewrite digits_Some. split.
    + intros (L & A & rest & ->). repeat split; auto. now exists rest.
    + intros (L & A & rest & e). repeat split; auto. exists rest.
      now injection e.
  - split; [discriminate|]. intros (_ & _ & rest & ->).
    cbn in D. discriminate.
Qed.

Lemma match_date_at_Some (tag s g : string) :
  match_date_at tag s = Some g <-> date_field_at tag g s.
Proof.
  unfold match_date_at, date_field_at.
  destruct (drop_prefix tag s) as [r|] eqn:D.
  - apply drop_prefix_Some in D as ->.
    destruct (drop_prefix ";VALUE=DATE" r) as [r'|] eqn:D'.
    + apply drop_prefix_Some in D' as ->.
      assert (N : colon_digits (";VALUE=DATE" ++ r') = None) by reflexivity.
      rewrite N.
      destruct (colon_digits r') as [g'|] eqn:C.
      * apply colon_digits_Some in C as (L & A & rest & ->). split.
        -- intros [= <-]. repeat split; auto. exists rest. now right.
        -- intros (L' & A' & rest' & [e|e]).
           ++ apply (f_equal (drop_prefix tag)) in e.
              rewrite !drop_prefix_append in e. discriminate.
           ++ apply (f_equal (drop_prefix tag)) in e.
              rewrite !drop_prefix_append in e. injection e as e.
              assert (C1 : colon_digits (":" ++ g' ++ rest) = Some g')
                by (apply colon_digits_Some; repeat split; auto; now exists rest).
              assert (C2 : colon_digits (":" ++ g' ++ rest) = Some g).
              { apply colon_digits_Some. repeat split; auto. exists rest'.
                cbn in e |- *. congruence. }
              congruence.
      * split; [discriminate|]. intros (L' & A' & rest' & [e|e]).
        -- apply (f_equal (drop_prefix tag)) in e.
           rewrite !drop_prefix_append in e. discriminate.
        -- apply (f_equal (drop_prefix tag)) in e.
           rewrite !drop_prefix_append in e. injection e as e.
           assert (C2 : colon_digits r' = Some g).
           { apply colon_digits_Some. repeat split; auto. exists rest'.
             cbn in e |- *. congruence. }
           congruence.
    + rewrite colon_digits_Some. split.
      * intros (L & A & rest & ->). repeat split; auto. exists rest. now left.
      * intros (L & A & rest & [e|e]).
        -- apply (f_equal (drop_prefix tag)) in e.
           rewrite !drop_prefix_append in e. injection e as ->.
           repeat split; auto. now exists rest.
        -- apply (f_equal (drop_prefix tag)) in e.
           rewrite !drop_prefix_append in e. injection e as ->.
           cbn in D'. discriminate.
  - split; [discriminate|]. intros (_ & _ & rest & [e|e]);
      rewrite e, drop_prefix_append in D; discriminate.
Qed.

Lemma search_date_None (tag evt : string) :
  search_date tag evt = None <-> ~ has_date_field tag evt.
Proof.
  unfold has_date_field. induction evt as [|c evt IH].
  - cbn [search_date].
    destruct (match_date_at tag "") as [g|] eqn:M.
    + split; [discriminate|]. intros H. elim H.
      exists "", g, "". split; [reflexivity | now apply match_date_at_Some].
    + split; [|reflexivity]. intros _ (pre & ds & s & e & F).
      destruct pre; [|discriminate]. cbn in e. subst s.
      apply match_date_at_Some in F. congruence.
  - cbn [search_date].
    destruct (match_date_at tag (String c evt)) as [g|] eqn:M.
    + split; [discriminate|]. intros H. elim H.
      exists "", g, (String c evt). split; [reflexivity|].
      now apply match_date_at_Some.
    + rewrite IH. split.
      * intros H (pre & ds & s & e & F). destruct pre as [|x pre].
        -- cbn in e. subst s. apply match_date_at_Some in F. congruence.
        -- injection e as _ e. apply H. now exists pre, ds, s.
      * intros H (pre & ds & s & e & F). apply H.
        exists (String c pre), ds, s. split; [cbn; now rewrite e | exact F].
Qed.

Lemma search_date_Some (tag evt g : string) :
  search_date tag evt = Some g ->
  String.length g = 8%nat /\ all_digits g = true /\ has_date_field tag evt.
Proof.
  unfold has_date_field. induction evt as [|c evt IH]; cbn [search_date].
  - destruct (match_date_at tag "") as [g'|] eqn:M; [|discriminate].
    intros [= ->]. apply match_date_at_Some in M.
    pose proof M as (L & A & _). repeat split; auto. now exists "", g, "".
  - destruct (match_date_at tag (String c evt)) as [g'|] eqn:M.
    + intros [= ->]. apply match_date_at_Some in M.
      pose proof M as (L & A & _). repeat split; auto.
      now exists "", g, (String c evt).
    + intros H. apply IH in H as (L & A & pre & ds & s & e & F).
      repeat split; auto. exists (String c pre), ds, s.
      split; [cbn; now rewrite e | exact F].
Qed.

Lemma append_length (a b : string) :
  String.length (a ++ b) = (String.length a + String.length b)%nat.
Proof. induction a as [|x a IH]; cbn; [reflexivity | now rewrite IH]. Qed.

Lemma split_from_nonempty (sep : string) (k : nat) (s : string) :
  split_from sep k s <> [].
Proof.
  revert k. induction s as [|c s IH]; intros k; cbn [split_from].
  - discriminate.
  - destruct k as [|k]; [|apply IH].
    destruct (startswith sep (String c s)); [discriminate|].
    destruct (split_from sep 0 s); discriminate.
Qed.

Lemma split_from_skip (sep t s : string) :
  split_from sep (String.length t) (t ++ s) = split_from sep 0 s.
Proof. induction t as [|x t IH]; cbn; [reflexivity | exact IH]. Qed.

(** [split] loses nothing: joining the pieces with the separator gives the
    text back, as [sep.join(s.split(sep)) == s] does in Python. *)
Lemma split_join (sep s : string) :
  sep <> "" -> String.concat sep (split sep s) = s.
Proof.
  intros Hsep. unfold split.
  remember (String.length s) as n eqn:Hn.
  assert (Hle : (String.length s <= n)%nat) by lia. clear Hn.
  revert s Hle. induction n as [|n IH]; intros [|c s] Hle; cbn in Hle;
    try reflexivity; try lia.
  cbn [split_from].
  destruct (startswith sep (String c s)) eqn:E.
  - apply startswith_iff in E as [t Ht].
    destruct sep as [|a sep']; [now elim Hsep|].
    cbn [append] in Ht. injection Ht as -> ->.
    cbn [String.length].
    replace (S (String.length sep') - 1)%nat with (String.length sep') by lia.
    rewrite split_from_skip.
    pose proof (split_from_nonempty (String a sep') 0 t) as Hne.
    assert (Ht : String.concat (String a sep') (split_from (String a sep') 0 t)
                 = t).
    { apply IH. rewrite append_length in Hle. lia. }
    destruct (split_from (String a sep') 0 t) as [|seg rest];
      [now elim Hne|].
    cbn [String.concat]. cbn [String.concat] in Ht. rewrite Ht.
    reflexivity.
  - pose proof (split_from_nonempty sep 0 s) as Hne.
    assert (Hs : String.concat sep (split_from sep 0 s) = s)
      by (apply IH; lia).
    destruct (split_from sep 0 s) as [|seg rest]; [now elim Hne|].
    destruct rest as [|seg' rest]; cbn [String.concat] in Hs |- *;
      cbn [append]; now rewrite Hs.
Qed.

End StringFacts.

(** ** One event block *)

Section Blocks.
Import PyStr PyRe PyDatetimeFacts.

Lemma strptime_valid (s : string) (d : PyDatetime.datetime) :
  PyDatetime.strptime s = Ok d -> PyDatetime.valid d.
Proof.
  unfold PyDatetime.strptime, PyDatetime.valid.
  destruct s as [|a [|b [|c [|x [|e [|f [|g [|h [|]]]]]]]]]; try discriminate.
  destruct (forallb _ _); [|discriminate].
  destruct (PyDatetime.check_date_fields _ _ _) eqn:C; [|discriminate].
  intros [= <-]. exact C.
Qed.

Lemma strptime_outcome (s : string) :
  (exists d, PyDatetime.strptime s = Ok d)
  \/ PyDatetime.strptime s = Raise ValueError.
Proof.
  unfold PyDatetime.strptime.
  destruct s as [|a [|b [|c [|x [|e [|f [|g [|h [|]]]]]]]]]; auto.
  destruct (forallb _ _); auto.
  destruct (PyDatetime.check_date_fields _ _ _); eauto.
Qed.

Lemma toordinal_lt_max (d : PyDatetime.datetime) :
  PyDatetime.valid d -> PyDatetime.year d < 9999 ->
  PyDatetime.toordinal d < PyDatetime.MAXORDINAL.
Proof.
  intros Hv Hy.
  apply (toordinal_year_lt d (PyDatetime.mkdt 9999 12 31) Hv);
    [reflexivity | exact Hy].
Qed.

Lemma sub_days_one (e : PyDatetime.datetime) :
  PyDatetime.valid e ->
  PyDatetime.sub_days e 1 =
  if 1 <? PyDatetime.toordinal e
  then Ok (PyDatetime.fromordinal (PyDatetime.toordinal e - 1))
  else Raise OverflowError.
Proof.
  intros Hv. pose proof (toordinal_range e Hv) as Hr.
  unfold PyDatetime.sub_days, PyDatetime.add_days.
  replace (PyDatetime.toordinal e + - (1)) with (PyDatetime.toordinal e - 1)
    by ring.
  destruct (Z.ltb_spec 1 (PyDatetime.toordinal e)).
  - replace (0 <? _) with true by (symmetry; apply Z.ltb_lt; lia).
    replace (_ <=? _) with true by (symmetry; apply Z.leb_le; lia).
    reflexivity.
  - replace (0 <? _) with false by (symmetry; apply Z.ltb_ge; lia).
    reflexivity.
Qed.

Lemma effective_end_ok (start_date last : PyDatetime.datetime)
    (end_m : option string) :
  PyDatetime.valid start_date -> PyDatetime.year start_date = 2026 ->
  effective_end start_date end_m = Ok last ->
  PyDatetime.valid last
  /\ PyDatetime.toordinal last < PyDatetime.MAXORDINAL.
Proof.
  intros Hv Hy. destruct end_m as [end_str|]; cbn [effective_end].
  - destruct (PyDatetime.strptime end_str) as [e| |] eqn:P;
      cbn [bind]; try discriminate.
    apply strptime_valid in P. pose proof (toordinal_range e P) as Hr.
    rewrite (sub_days_one e P).
    destruct (Z.ltb_spec 1 (PyDatetime.toordinal e)); [|discriminate].
    intros [= <-].
    split; [apply fromordinal_valid | rewrite toordinal_fromordinal]; lia.
  - intros [= <-]. split; [exact Hv | apply toordinal_lt_max; [exact Hv | lia]].
Qed.

(** A block that passes every filter goes on to the range resolution and
    the loop. *)
Lemma process_block_kept (shift_name : string) (results : list ShiftRecord)
    (evt summary_g start_str : string) (start_date : PyDatetime.datetime) :
  search_summary evt = Some summary_g ->
  title_kept (strip summary_g) ->
  search_date "DTSTART" evt = Some start_str ->
  PyDatetime.strptime start_str = Ok start_date ->
  in_window start_date ->
  process_block shift_name results evt =
  (end_date <- effective_end start_date (search_date "DTEND" evt) ;;
   weekend_loop (loop_fuel end_date start_date) (strip summary_g) shift_name
     end_date start_date results).
Proof.
  intros Hs [Ho Hp] Hd Hst [Hy Hm]. unfold process_block.
  rewrite Hs, Hd, Hst.
  destruct (contains "OOO" (strip summary_g)) eqn:C1;
    [apply contains_iff in C1; contradiction|].
  destruct (contains "+" (strip summary_g)) eqn:C2;
    [apply contains_iff in C2; contradiction|].
  cbn [orb]. rewrite Hy. cbn [Z.eqb Pos.eqb negb].
  destruct (Z.ltb_spec 2 (PyDatetime.month start_date)); [lia|reflexivity].
Qed.

Lemma weekend_days_In (start last d : PyDatetime.datetime) :
  PyDatetime.valid start -> PyDatetime.valid last ->
  In d (weekend_days start last) <->
  PyDatetime.valid d /\ PyDatetime.dt_le start d = true
  /\ PyDatetime.dt_le d last = true /\ is_weekend d = true.
Proof.
  intros Hs Hl. unfold weekend_days.
  pose proof (toordinal_range _ Hs) as Rs.
  pose proof (toordinal_range _ Hl) as Rl.
  rewrite filter_In, in_map_iff. split.
  - intros [(o & <- & Ho) W]. apply in_ordinals_from in Ho.
    assert (Hr : 1 <= o <= PyDatetime.MAXORDINAL) by lia.
    pose proof (fromordinal_valid o Hr) as Hv.
    repeat split; auto.
    + rewrite (dt_le_toordinal _ _ Hs Hv), (toordinal_fromordinal o Hr).
      apply Z.leb_le. lia.
    + rewrite (dt_le_toordinal _ _ Hv Hl), (toordinal_fromordinal o Hr).
      apply Z.leb_le. lia.
  - intros (Hv & L1 & L2 & W). split; [|exact W].
    rewrite (dt_le_toordinal _ _ Hs Hv) in L1.
    rewrite (dt_le_toordinal _ _ Hv Hl) in L2.
    apply Z.leb_le in L1, L2.
    exists (PyDatetime.toordinal d). split.
    + now apply fromordinal_toordinal.
    + apply in_ordinals_from. lia.
Qed.

Lemma weekend_days_NoDup (start last : PyDatetime.datetime) :
  PyDatetime.valid start -> PyDatetime.valid last ->
  NoDup (weekend_days start last).
Proof.
  intros Hs Hl. unfold weekend_days.
  pose proof (toordinal_range _ Hs) as Rs.
  pose proof (toordinal_range _ Hl) as Rl.
  apply NoDup_filter, NoDup_map_NoDup_ForallPairs;
    [|apply NoDup_ordinals_from].
  intros a b Ha Hb E. apply in_ordinals_from in Ha, Hb.
  rewrite <- (toordinal_fromordinal a), <- (toordinal_fromordinal b), E by lia.
  reflexivity.
Qed.

(** The loop, started with the fuel [process_block] gives it, terminates
    with the weekend days of the range. *)
Lemma weekend_loop_total (summary shift_name : string)
    (start_date last : PyDatetime.datetime) (results : list ShiftRecord) :
  PyDatetime.valid start_date -> PyDatetime.valid last ->
  PyDatetime.toordinal last < PyDatetime.MAXORDINAL ->
  weekend_loop (loop_fuel last start_date) summary shift_name last start_date
    results
  = Ok (results
        ++ map (record_for summary shift_name) (weekend_days start_date last)).
Proof.
  intros Hs Hl Hmax. unfold weekend_days, loop_fuel.
  apply weekend_loop_run; auto; lia.
Qed.

Lemma yesterday_spec (e p : PyDatetime.datetime) :
  PyDatetime.valid e -> yesterday e = Some p ->
  PyDatetime.valid p /\ PyDatetime.toordinal p = PyDatetime.toordinal e - 1.
Proof.
  destruct e as [y m dd].
  unfold PyDatetime.valid, PyDatetime.check_date_fields, yesterday,
    PyDatetime.toordinal, PyDatetime.ymd2ord, PyDatetime.MINYEAR,
    PyDatetime.MAXYEAR.
  cbn [PyDatetime.year PyDatetime.month PyDatetime.day].
  intros Hv. zbool.
  assert (Hm : 1 <= m <= 12) by lia.
  destruct (Z.ltb_spec 1 dd) as [Hd|Hd].
  { intros [= <-]. cbn [PyDatetime.year PyDatetime.month PyDatetime.day].
    split; [|lia].
    repeat (apply andb_true_iff; split); apply Z.leb_le; lia. }
  destruct (Z.ltb_spec 1 m) as [Hm1|Hm1].
  { intros [= <-]. cbn [PyDatetime.year PyDatetime.month PyDatetime.day].
    assert (Hm' : 1 <= m - 1 <= 12) by lia.
    assert (K : 28 <= PyDatetime.days_in_month y (m - 1)
                /\ PyDatetime.days_before_month y (m - 1)
                   + PyDatetime.days_in_month y (m - 1)
                   = PyDatetime.days_before_month y m).
    { unfold PyDatetime.days_in_month, PyDatetime.days_before_month.
      each_month m Hm; try lia; cbn [Z.sub Z.add Z.opp Z.pos_sub Pos.pred_double];
        destruct (PyDatetime.is_leap y); calc_tbl; lia. }
    split; [|lia].
    repeat (apply andb_true_iff; split); apply Z.leb_le; lia. }
  destruct (Z.ltb_spec 1 y) as [Hy|Hy]; [|discriminate].
  intros [= <-]. cbn [PyDatetime.year PyDatetime.month PyDatetime.day].
  assert (m = 1) by lia. assert (dd = 1) by lia. subst m dd.
  pose proof (days_before_year_succ (y - 1)) as Hs.
  replace (y - 1 + 1) with y in Hs by ring.
  unfold PyDatetimeAux.days_in_year in Hs.
  unfold PyDatetime.days_in_month, PyDatetime.days_before_month.
  split.
  - repeat (apply andb_true_iff; split); try reflexivity; apply Z.leb_le; lia.
  - destruct (PyDatetime.is_leap (y - 1)), (PyDatetime.is_leap y);
      calc_tbl; lia.
Qed.

Lemma yesterday_None (e : PyDatetime.datetime) :
  PyDatetime.valid e ->
  (yesterday e = None <-> e = PyDatetime.mkdt 1 1 1).
Proof.
  destruct e as [y m dd].
  unfold PyDatetime.valid, PyDatetime.check_date_fields, yesterday,
    PyDatetime.MINYEAR.
  cbn [PyDatetime.year PyDatetime.month PyDatetime.day].
  intros Hv. zbool. split.
  - destruct (Z.ltb_spec 1 dd); [discriminate|].
    destruct (Z.ltb_spec 1 m); [discriminate|].
    destruct (Z.ltb_spec 1 y); [discriminate|].
    intros _. f_equal; lia.
  - intros [= -> -> ->]. reflexivity.
Qed.

Lemma sub_days_yesterday (e p : PyDatetime.datetime) :
  PyDatetime.valid e -> yesterday e = Some p ->
  PyDatetime.sub_days e 1 = Ok p.
Proof.
  intros Hv Hy. destruct (yesterday_spec e p Hv Hy) as [Vp Op].
  pose proof (toordinal_range p Vp) as Rp.
  rewrite (sub_days_one e Hv).
  destruct (Z.ltb_spec 1 (PyDatetime.toordinal e)); [|lia].
  rewrite <- Op. now rewrite fromordinal_toordinal.
Qed.

Lemma sub_days_min :
  PyDatetime.sub_days (PyDatetime.mkdt 1 1 1) 1 = Raise OverflowError.
Proof. reflexivity. Qed.

End Blocks.

(** ** The claims about one event block *)

Section BlockClaims.
Import PyStr PyRe PyDatetimeFacts.

(** C3. For an event block that passes the filters, with start date
    [start_date] and effective last day [last], the records appended are
    the records of a duplicate-free list of days, and a day is in that list
    exactly when it is a calendar day from [start_date] to [last] inclusive
    that falls on a Saturday or Sunday; each record carries the ISO date,
    the weekday name, the trimmed title and the shift tag.  In particular a
    start of 20260102 (a Friday) with no end date appends nothing, and a
    start of 20260102 with end 20260106 appends exactly the records of
    January 3 (Sat) and January 4 (Sun). *)
Theorem C3_weekend_expansion (shift_name : string)
    (results : list ShiftRecord) (evt summary_g start_str : string) :
  search_summary evt = Some summary_g ->
  title_kept (strip summary_g) ->
  search_date "DTSTART" evt = Some start_str ->
  (forall start_date last : PyDatetime.datetime,
      PyDatetime.strptime start_str = Ok start_date ->
      in_window start_date ->
      effective_end start_date (search_date "DTEND" evt) = Ok last ->
      exists days : list PyDatetime.datetime,
        process_block shift_name results evt
        = Ok (results ++ map (record_for (strip summary_g) shift_name) days)
        /\ NoDup days
        /\ forall d, In d days <->
             PyDatetime.valid d /\ PyDatetime.dt_le start_date d = true
             /\ PyDatetime.dt_le d last = true /\ is_weekend d = true)
  /\ (start_str = "20260102" ->
      search_date "DTEND" evt = None ->
      PyDatetime.weekday (PyDatetime.mkdt 2026 1 2) = 4
      /\ process_block shift_name results evt = Ok results)
  /\ (start_str = "20260102" ->
      search_date "DTEND" evt = Some "20260106" ->
      process_block shift_name results evt
      = Ok (results
            ++ [mkrec "2026-01-03" "Sat" (strip summary_g) shift_name;
                mkrec "2026-01-04" "Sun" (strip summary_g) shift_name])).
Proof.
  intros Hs Hk Hd. split; [|split].
  - intros start_date last Hp Hw He.
    pose proof (strptime_valid _ _ Hp) as Vs.
    destruct (effective_end_ok _ _ _ Vs (proj1 Hw) He) as [Vl Ml].
    exists (weekend_days start_date last).
    rewrite (process_block_kept _ _ _ _ _ _ Hs Hk Hd Hp Hw), He. cbn [bind].
    rewrite (weekend_loop_total _ _ _ _ _ Vs Vl Ml).
    split; [reflexivity|]. split.
    + now apply weekend_days_NoDup.
    + intros d. now apply weekend_days_In.
  - intros -> He. split; [reflexivity|].
    rewrite (process_block_kept _ _ _ _ _ (PyDatetime.mkdt 2026 1 2) Hs Hk Hd);
      [ | reflexivity | split; cbn; lia ].
    rewrite He. cbn [effective_end bind].
    rewrite weekend_loop_total by (try reflexivity).
    replace (weekend_days _ _) with (@nil PyDatetime.datetime)
      by (vm_compute; reflexivity).
    cbn [map]. now rewrite app_nil_r.
  - intros -> He.
    rewrite (process_block_kept _ _ _ _ _ (PyDatetime.mkdt 2026 1 2) Hs Hk Hd);
      [ | reflexivity | split; cbn; lia ].
    rewrite He.
    replace (effective_end _ _) with (Ok (PyDatetime.mkdt 2026 1 5))
      by (vm_compute; reflexivity).
    cbn [bind].
    rewrite weekend_loop_total by (try reflexivity).
    replace (weekend_days _ _)
      with [PyDatetime.mkdt 2026 1 3; PyDatetime.mkdt 2026 1 4]
      by (vm_compute; reflexivity).
    reflexivity.
Qed.

Lemma C3_weekend_expansion_witness :
  (exists days : list PyDatetime.datetime,
      process_block "AM" [] block_fri_to_tue
      = Ok ([] ++ map (record_for (strip " Alice ") "AM") days)
      /\ NoDup days
      /\ forall d, In d days <->
           PyDatetime.valid d
           /\ PyDatetime.dt_le (PyDatetime.mkdt 2026 1 2) d = true
           /\ PyDatetime.dt_le d (PyDatetime.mkdt 2026 1 5) = true
           /\ is_weekend d = true)
  /\ process_block "AM" [] block_fri_to_tue
     = Ok [mkrec "2026-01-03" "Sat" "Alice" "AM";
           mkrec "2026-01-04" "Sun" "Alice" "AM"]
  /\ process_block "AM" [] block_fri_only = Ok [].
Proof.
  assert (K : title_kept (strip " Alice ")).
  { split; intros H; apply contains_iff in H; discriminate H. }
  assert (W : in_window (PyDatetime.mkdt 2026 1 2)) by (split; cbn; lia).
  split; [|split].
  - exact (proj1 (C3_weekend_expansion "AM" [] block_fri_to_tue
                    " Alice " "20260102" eq_refl K eq_refl)
             (PyDatetime.mkdt 2026 1 2) (PyDatetime.mkdt 2026 1 5)
             eq_refl W eq_refl).
  - exact (proj2 (proj2 (C3_weekend_expansion "AM" [] block_fri_to_tue
                           " Alice " "20260102" eq_refl K eq_refl))
             eq_refl eq_refl).
  - exact (proj2 (proj1 (proj2 (C3_weekend_expansion "AM" [] block_fri_only
                                  " Alice " "20260102" eq_refl K eq_refl))
                    eq_refl eq_refl)).
Defined.

(** C4. The effective last day of a block is its start date when the block
    has no end-date field; when the field is there and parses as the date
    [e], it is the calendar day before [e]. *)
Theorem C4_effective_last_day (start_date : PyDatetime.datetime)
    (evt : string) :
  (~ has_date_field "DTEND" evt ->
   effective_end start_date (search_date "DTEND" evt) = Ok start_date)
  /\ (forall (end_str : string) (e p : PyDatetime.datetime),
        search_date "DTEND" evt = Some end_str ->
        PyDatetime.strptime end_str = Ok e ->
        yesterday e = Some p ->
        has_date_field "DTEND" evt
        /\ effective_end start_date (search_date "DTEND" evt) = Ok p).
Proof.
  split.
  - intros H. apply search_date_None in H. now rewrite H.
  - intros end_str e p Hs Hp Hy. split.
    + now apply search_date_Some in Hs.
    + rewrite Hs. cbn [effective_end]. rewrite Hp. cbn [bind].
      apply sub_days_yesterday; [now apply strptime_valid in Hp | exact Hy].
Qed.

Lemma C4_effective_last_day_witness :
  effective_end (PyDatetime.mkdt 2026 1 2)
    (search_date "DTEND" block_fri_only) = Ok (PyDatetime.mkdt 2026 1 2)
  /\ has_date_field "DTEND" block_fri_to_tue
  /\ effective_end (PyDatetime.mkdt 2026 1 2)
       (search_date "DTEND" block_fri_to_tue) = Ok (PyDatetime.mkdt 2026 1 5).
Proof.
  split.
  - apply (proj1 (C4_effective_last_day (PyDatetime.mkdt 2026 1 2)
                    block_fri_only)).
    apply search_date_None. reflexivity.
  - exact (proj2 (C4_effective_last_day (PyDatetime.mkdt 2026 1 2)
                    block_fri_to_tue)
             "20260106" (PyDatetime.mkdt 2026 1 6) (PyDatetime.mkdt 2026 1 5)
             eq_refl eq_refl eq_refl).
Defined.

(** C5. A block whose trimmed summary contains "OOO" or "+" leaves the
    results as they were, whatever its dates. *)
Theorem C5_excluded_titles (shift_name : string)
    (results : list ShiftRecord) (evt summary_g : string) :
  search_summary evt = Some summary_g ->
  occurs_in "OOO" (strip summary_g) \/ occurs_in "+" (strip summary_g) ->
  process_block shift_name results evt = Ok results.
Proof.
  intros Hs Ho. unfold process_block. rewrite Hs.
  destruct (search_date "DTSTART" evt); [|reflexivity].
  replace (contains "OOO" (strip summary_g) || contains "+" (strip summary_g))
    with true; [reflexivity|].
  symmetry. apply orb_true_iff.
  destruct Ho as [Ho|Ho]; [left|right]; now apply contains_iff.
Qed.

Lemma C5_excluded_titles_witness :
  process_block "AM" [] block_ooo = Ok []
  /\ process_block "AM" [] block_plus = Ok [].
Proof.
  split.
  - apply (C5_excluded_titles "AM" [] block_ooo "Alice OOO" eq_refl).
    left. apply contains_iff. reflexivity.
  - apply (C5_excluded_titles "AM" [] block_plus "Alice + Bob" eq_refl).
    right. apply contains_iff. reflexivity.
Defined.

(** C6. A block whose start date parses to a year other than 2026, or to
    2026 with a month after February, leaves the results as they were. *)
Theorem C6_outside_window (shift_name : string)
    (results : list ShiftRecord) (evt start_str : string)
    (start_date : PyDatetime.datetime) :
  search_date "DTSTART" evt = Some start_str ->
  PyDatetime.strptime start_str = Ok start_date ->
  PyDatetime.year start_date <> 2026
  \/ (PyDatetime.year start_date = 2026 /\ 2 < PyDatetime.month start_date) ->
  process_block shift_name results evt = Ok results.
Proof.
  intros Hd Hp Hw. unfold process_block. rewrite Hd.
  destruct (search_summary evt); [|reflexivity].
  destruct (_ || _); [reflexivity|]. rewrite Hp.
  destruct (Z.eqb_spec (PyDatetime.year start_date) 2026) as [Hy|Hy];
    cbn [negb]; [|reflexivity].
  destruct Hw as [Hw|[_ Hw]]; [contradiction|].
  apply Z.ltb_lt in Hw. now rewrite Hw.
Qed.

Lemma C6_outside_window_witness :
  process_block "AM" [] block_2025 = Ok []
  /\ process_block "AM" [] block_march = Ok [].
Proof.
  split.
  - apply (C6_outside_window "AM" [] block_2025 "20250104"
             (PyDatetime.mkdt 2025 1 4) eq_refl eq_refl).
    left. cbn. lia.
  - apply (C6_outside_window "AM" [] block_march "20260307"
             (PyDatetime.mkdt 2026 3 7) eq_refl eq_refl).
    right. cbn. lia.
Defined.

(** C8. A block without a summary field, or without a start-date field,
    leaves the results as they were and raises nothing. *)
Theorem C8_missing_fields (shift_name : string)
    (results : list ShiftRecord) (evt : string) :
  ~ occurs_in "SUMMARY:" evt \/ ~ has_date_field "DTSTART" evt ->
  process_block shift_name results evt = Ok results.
Proof.
  intros [H|H]; unfold process_block.
  - apply search_summary_None in H. now rewrite H.
  - apply search_date_None in H. rewrite H.
    now destruct (search_summary evt).
Qed.

Lemma C8_missing_fields_witness :
  process_block "AM" [] block_no_summary = Ok []
  /\ process_block "AM" [] block_no_start = Ok [].
Proof.
  split.
  - apply (C8_missing_fields "AM" [] block_no_summary).
    left. apply search_summary_None. reflexivity.
  - apply (C8_missing_fields "AM" [] block_no_start).
    right. apply search_date_None. reflexivity.
Defined.

Lemma effective_end_outcome (start_date : PyDatetime.datetime)
    (end_m : option string) :
  (exists last, effective_end start_date end_m = Ok last)
  \/ (exists e, effective_end start_date end_m = Raise e).
Proof.
  destruct end_m as [end_str|]; cbn [effective_end]; [|eauto].
  destruct (strptime_outcome end_str) as [[e He]| He]; rewrite He; cbn [bind];
    [|eauto].
  unfold PyDatetime.sub_days, PyDatetime.add_days.
  destruct (_ && _); eauto.
Qed.

(** Every block either leaves the results alone, or appends the weekend
    days of a range that starts in the window, or raises: the loop never
    runs out of fuel. *)
Lemma process_block_cases (shift_name : string) (results : list ShiftRecord)
    (evt : string) :
  process_block shift_name results evt = Ok results
  \/ (exists (summary : string) (start_date last : PyDatetime.datetime),
        PyDatetime.valid start_date /\ in_window start_date
        /\ PyDatetime.valid last
        /\ process_block shift_name results evt
           = Ok (results ++ map (record_for summary shift_name)
                               (weekend_days start_date last)))
  \/ (exists e, process_block shift_name results evt = Raise e).
Proof.
  unfold process_block.
  destruct (search_summary evt) as [summary_g|]; [|now left].
  destruct (search_date "DTSTART" evt) as [start_str|]; [|now left].
  destruct (_ || _); [now left|].
  destruct (strptime_outcome start_str) as [[sd Hp]|Hp]; rewrite Hp;
    [|now left].
  destruct (Z.eqb_spec (PyDatetime.year sd) 2026) as [Hy|Hy]; cbn [negb];
    [|now left].
  destruct (Z.ltb_spec 2 (PyDatetime.month sd)) as [Hm|Hm]; [now left|].
  pose proof (strptime_valid _ _ Hp) as Vs.
  destruct (effective_end_outcome sd (search_date "DTEND" evt))
    as [[last He]|[e He]]; rewrite He; cbn [bind].
  - destruct (effective_end_ok _ _ _ Vs Hy He) as [Vl Ml].
    right. left. exists (strip summary_g), sd, last.
    repeat split; auto.
    now apply weekend_loop_total.
  - right. right. now exists e.
Qed.

Lemma process_block_terminates (shift_name : string)
    (results : list ShiftRecord) (evt : string) :
  process_block shift_name results evt <> OutOfFuel.
Proof.
  destruct (process_block_cases shift_name results evt)
    as [H|[(s0 & sd & l & _ & _ & _ & H)|[e H]]]; rewrite H; discriminate.
Qed.

Lemma record_for_weekend (shift_name summary : string)
    (start_date last d : PyDatetime.datetime) :
  PyDatetime.valid start_date -> in_window start_date ->
  PyDatetime.valid last ->
  In d (weekend_days start_date last) ->
  weekend_from_window shift_name (record_for summary shift_name d).
Proof.
  intros Vs [Hy Hm] Vl Hd.
  apply weekend_days_In in Hd as (Vd & L1 & L2 & W); auto.
  exists start_date, d. repeat split; auto.
  - unfold PyDatetime.valid, PyDatetime.check_date_fields in Vs. zbool. lia.
  - unfold is_weekend in W. apply orb_prop in W. cbn [record_for day].
    destruct W as [W|W]; apply Z.eqb_eq in W; rewrite W; [left|right];
      now split.
Qed.

Lemma for_each_event_records (shift_name : string) (events : list string) :
  forall results rs,
    for_each_event shift_name results events = Ok rs ->
    forall r, In r rs ->
      In r results \/ weekend_from_window shift_name r.
Proof.
  induction events as [|evt events IH]; intros results rs H r Hr.
  - cbn in H. injection H as <-. now left.
  - cbn [for_each_event] in H.
    destruct (process_block_cases shift_name results evt)
      as [E|[(summary & sd & last & Vs & Hw & Vl & E)|[e E]]];
      rewrite E in H; cbn [bind] in H.
    + eapply IH; eauto.
    + destruct (IH _ _ H r Hr) as [Hin|Hin]; [|now right].
      apply in_app_or in Hin as [Hin|Hin]; [now left|right].
      apply in_map_iff in Hin as (d & <- & Hd).
      now apply (record_for_weekend _ _ sd last).
    + discriminate.
Qed.

(** In the start position a date of eight digits that is no calendar date
    is caught: the block is skipped. *)
Lemma malformed_start_skipped (shift_name : string)
    (results : list ShiftRecord) (evt start_str : string) :
  search_date "DTSTART" evt = Some start_str ->
  PyDatetime.strptime start_str = Raise ValueError ->
  process_block shift_name results evt = Ok results.
Proof.
  intros Hd Hp. unfold process_block. rewrite Hd.
  destruct (search_summary evt); [|reflexivity].
  destruct (_ || _); [reflexivity|]. now rewrite Hp.
Qed.

(** The only way a block raises: it passed every filter and its end date
    either is no calendar date or is the first date there is. *)
Lemma process_block_raises (shift_name : string)
    (results : list ShiftRecord) (evt : string) (ex : exn) :
  process_block shift_name results evt = Raise ex ->
  exists (summary_g start_str end_str : string)
         (start_date : PyDatetime.datetime),
    search_summary evt = Some summary_g
    /\ title_kept (strip summary_g)
    /\ search_date "DTSTART" evt = Some start_str
    /\ PyDatetime.strptime start_str = Ok start_date
    /\ in_window start_date
    /\ search_date "DTEND" evt = Some end_str
    /\ ((PyDatetime.strptime end_str = Raise ValueError /\ ex = ValueError)
        \/ (PyDatetime.strptime end_str = Ok (PyDatetime.mkdt 1 1 1)
            /\ ex = OverflowError)).
Proof.
  unfold process_block.
  destruct (search_summary evt) as [summary_g|] eqn:Hs; [|discriminate].
  destruct (search_date "DTSTART" evt) as [start_str|] eqn:Hd; [|discriminate].
  destruct (contains "OOO" (strip summary_g)) eqn:C1; [discriminate|].
  destruct (contains "+" (strip summary_g)) eqn:C2; [discriminate|].
  cbn [orb].
  destruct (strptime_outcome start_str) as [[sd Hp]|Hp]; rewrite Hp;
    [|discriminate].
  destruct (Z.eqb_spec (PyDatetime.year sd) 2026) as [Hy|Hy]; cbn [negb];
    [|discriminate].
  destruct (Z.ltb_spec 2 (PyDatetime.month sd)) as [Hm|Hm]; [discriminate|].
  pose proof (strptime_valid _ _ Hp) as Vs.
  assert (K : title_kept (strip summary_g)).
  { split; intros H; apply contains_iff in H; congruence. }
  pose proof K as [K1 K2].
  destruct (search_date "DTEND" evt) as [end_str|] eqn:He.
  - cbn [effective_end].
    destruct (strptime_outcome end_str) as [[e Hpe]|Hpe]; rewrite Hpe;
      cbn [bind].
    + pose proof (strptime_valid _ _ Hpe) as Ve.
      destruct (yesterday e) as [p|] eqn:Hy'.
      * rewrite (sub_days_yesterday e p Ve Hy'). cbn [bind].
        destruct (yesterday_spec e p Ve Hy') as [Vp Op].
        pose proof (toordinal_range e Ve).
        rewrite weekend_loop_total by (auto; lia). discriminate.
      * apply (yesterday_None e Ve) in Hy'. subst e.
        rewrite sub_days_min. cbn [bind]. intros [= <-].
        exists summary_g, start_str, end_str, sd.
        repeat split; auto.
    + intros [= <-]. exists summary_g, start_str, end_str, sd.
      repeat split; auto.
  - cbn [effective_end bind].
    rewrite weekend_loop_total
      by first [exact Vs | apply toordinal_lt_max; [exact Vs | lia]].
    discriminate.
Qed.

(** C10, as amended.  For a block whose start date parses and whose end
    date parses to a date [e] other than 0001-01-01 and not after the start
    date, the results are left as they were, also when the start date is a
    Saturday or Sunday: the effective last day is the day before [e], it
    precedes the start date, and the loop stops at its first test without
    entering its body. *)
Theorem C10_end_not_after_start (shift_name : string)
    (results : list ShiftRecord) (evt start_str end_str : string)
    (start_date e : PyDatetime.datetime) :
  search_date "DTSTART" evt = Some start_str ->
  PyDatetime.strptime start_str = Ok start_date ->
  search_date "DTEND" evt = Some end_str ->
  PyDatetime.strptime end_str = Ok e ->
  PyDatetime.dt_le e start_date = true ->
  e <> PyDatetime.mkdt 1 1 1 ->
  process_block shift_name results evt = Ok results
  /\ exists last : PyDatetime.datetime,
       yesterday e = Some last
       /\ effective_end start_date (search_date "DTEND" evt) = Ok last
       /\ PyDatetime.dt_le start_date last = false
       /\ forall (fuel : nat) (summary : string),
            weekend_loop (S fuel) summary shift_name last start_date results
            = Ok results.
Proof.
  intros Hd Hp He Hpe Hle Hne.
  pose proof (strptime_valid _ _ Hp) as Vs.
  pose proof (strptime_valid _ _ Hpe) as Ve.
  destruct (yesterday e) as [last|] eqn:Hy;
    [|apply (yesterday_None e Ve) in Hy; contradiction].
  destruct (yesterday_spec e last Ve Hy) as [Vl Ol].
  assert (Eff : effective_end start_date (search_date "DTEND" evt) = Ok last).
  { rewrite He. cbn [effective_end]. rewrite Hpe. cbn [bind].
    now apply sub_days_yesterday. }
  assert (Lt : PyDatetime.dt_le start_date last = false).
  { rewrite (dt_le_toordinal _ _ Ve Vs) in Hle. apply Z.leb_le in Hle.
    rewrite (dt_le_toordinal _ _ Vs Vl). apply Z.leb_gt. lia. }
  split.
  - unfold process_block. rewrite Hd.
    destruct (search_summary evt) as [summary_g|]; [|reflexivity].
    destruct (_ || _); [reflexivity|]. rewrite Hp.
    destruct (negb _); [reflexivity|].
    destruct (2 <? _); [reflexivity|].
    rewrite Eff. cbn [bind]. unfold loop_fuel. cbn [weekend_loop].
    now rewrite Lt.
  - exists last. repeat split; auto.
    intros fuel summary. cbn [weekend_loop]. now rewrite Lt.
Qed.

Lemma C10_end_not_after_start_witness :
  process_block "AM" [] block_sat_end_same_day = Ok []
  /\ exists last : PyDatetime.datetime,
       yesterday (PyDatetime.mkdt 2026 1 3) = Some last
       /\ effective_end (PyDatetime.mkdt 2026 1 3)
            (search_date "DTEND" block_sat_end_same_day) = Ok last
       /\ PyDatetime.dt_le (PyDatetime.mkdt 2026 1 3) last = false
       /\ forall (fuel : nat) (summary : string),
            weekend_loop (S fuel) summary "AM" last
              (PyDatetime.mkdt 2026 1 3) [] = Ok [].
Proof.
  apply (C10_end_not_after_start "AM" [] block_sat_end_same_day
           "20260103" "20260103"
           (PyDatetime.mkdt 2026 1 3) (PyDatetime.mkdt 2026 1 3)).
  - reflexivity.
  - reflexivity.
  - reflexivity.
  - reflexivity.
  - reflexivity.
  - discriminate.
Defined.

(** C10, as stated, fails: the end date 0001-01-01 parses and is not after
    the start date, Saturday 3 January 2026, yet the block does not leave
    the results alone: taking a day off the first date [datetime] can
    represent raises [OverflowError]. *)
Lemma C10_counterexample :
  search_summary block_sat_end_min = Some "Alice"
  /\ search_date "DTSTART" block_sat_end_min = Some "20260103"
  /\ PyDatetime.strptime "20260103" = Ok (PyDatetime.mkdt 2026 1 3)
  /\ is_weekend (PyDatetime.mkdt 2026 1 3) = true
  /\ search_date "DTEND" block_sat_end_min = Some "00010101"
  /\ PyDatetime.strptime "00010101" = Ok (PyDatetime.mkdt 1 1 1)
  /\ PyDatetime.dt_le (PyDatetime.mkdt 1 1 1) (PyDatetime.mkdt 2026 1 3) = true
  /\ process_block "AM" [] block_sat_end_min = Raise OverflowError
  /\ process_block "AM" [] block_sat_end_min <> Ok [].
Proof. repeat split; try (vm_compute; reflexivity). discriminate. Qed.

End BlockClaims.

(** ** The claims about a whole file *)

Section FileClaims.
Import PyStr PyRe PyDatetimeFacts.

Lemma parse_content_records (content shift_name : string)
    (rs : list ShiftRecord) :
  parse_content content shift_name = Ok rs ->
  forall r, In r rs ->
    weekend_labelled r /\ weekend_from_window shift_name r.
Proof.
  unfold parse_content. intros H r Hr.
  destruct (for_each_event_records _ _ _ _ H r Hr) as [[]|W].
  split; [|exact W].
  destruct W as (sd & d & _ & _ & _ & Vd & _ & Hdate & Hday & _).
  now exists d.
Qed.

(** C1, at the failing input.  A date of eight digits that is no calendar
    date is skipped in the start position, but in the end position it
    raises [ValueError] out of the loop: the block is not skipped, the
    well-formed event after it is lost, and the exception reaches the
    caller of [parse_ics] and ends the run. *)
Theorem C1_malformed_end_date_raises :
  PyDatetime.strptime "20260230" = Raise ValueError
  /\ process_block "AM" [] block_start_feb30 = Ok []
  /\ parse_content file_start_feb30 "AM"
     = Ok [mkrec "2026-01-10" "Sat" "Bob" "AM";
           mkrec "2026-01-11" "Sun" "Bob" "AM"]
  /\ process_block "AM" [] block_sat_end_feb30 = Raise ValueError
  /\ parse_content file_end_feb30 "AM" = Raise ValueError
  /\ fst (parse_ics sample_dir (fs_single sample_am_path file_end_feb30)
            "AMR AM Analysts.ics" "AM" [])
     = Raise ValueError
  /\ fst (run sample_dir (fs_single sample_am_path file_end_feb30))
     = Raise ValueError.
Proof. repeat split; vm_compute; reflexivity. Qed.

End FileClaims.

(** ** The order of strings and of sort keys *)

Section Order.
Import PyStr.

Lemma code_inj (a b : ascii) : code a = code b -> a = b.
Proof.
  unfold code. intros H. apply N2Z.inj in H.
  rewrite <- (ascii_N_embedding a), <- (ascii_N_embedding b). now rewrite H.
Qed.

Lemma str_lt_iff (s t : string) : str_lt s t = true <-> lex_lt s t.
Proof.
  revert t. induction s as [|a s IH]; intros [|b t]; cbn [str_lt].
  - split; [discriminate | intros H; inversion H].
  - split; [constructor | reflexivity].
  - split; [discriminate | intros H; inversion H].
  - destruct (Z.ltb_spec (code a) (code b)) as [L|L].
    { split; [now constructor | reflexivity]. }
    destruct (Z.ltb_spec (code b) (code a)) as [L'|L'].
    { split; [discriminate|]. intros H. inversion H; subst; lia. }
    assert (a = b) by (apply code_inj; lia). subst b.
    rewrite IH. split; [now constructor|].
    intros H. inversion H; subst; [lia | assumption].
Qed.

Lemma lex_lt_irrefl (s : string) : ~ lex_lt s s.
Proof.
  induction s as [|a s IH]; intros H; inversion H; subst; [lia | auto].
Qed.

Lemma lex_lt_trans (s t u : string) : lex_lt s t -> lex_lt t u -> lex_lt s u.
Proof.
  intros H. revert u. induction H as [c s|a b s t L|a s t H IH]; intros u Hu.
  - inversion Hu; subst; constructor.
  - inversion Hu; subst; constructor; lia.
  - inversion Hu; subst.
    + now constructor.
    + constructor 3. now apply IH.
Qed.

Lemma lex_lt_trichotomy (s t : string) : lex_lt s t \/ s = t \/ lex_lt t s.
Proof.
  revert t. induction s as [|a s IH]; intros [|b t].
  - auto.
  - left. constructor.
  - right. right. constructor.
  - destruct (Z.lt_trichotomy (code a) (code b)) as [L|[E|L]].
    + left. now constructor.
    + apply code_inj in E as ->.
      destruct (IH t) as [H|[->|H]]; auto using lex_lt.
    + right. right. now constructor.
Qed.

Lemma pair_le_trans (a b c : string * string) :
  pair_le a b -> pair_le b c -> pair_le a c.
Proof.
  unfold pair_le. intros [H1|[E1 H1]] [H2|[E2 H2]].
  - left. eapply lex_lt_trans; eauto.
  - left. now rewrite <- E2.
  - left. now rewrite E1.
  - right. split; [congruence|].
    destruct H1 as [H1|H1], H2 as [H2|H2].
    + left. eapply lex_lt_trans; eauto.
    + left. now rewrite <- H2.
    + left. now rewrite H1.
    + right. congruence.
Qed.

(** What the comparison of [list.sort] decides, in terms of the order. *)
Lemma tuple_lt_true (a b : string * string) :
  tuple_lt a b = true -> pair_le a b.
Proof.
  unfold tuple_lt, pair_le.
  destruct (String.eqb_spec (fst a) (fst b)) as [E|E]; intros H;
    apply str_lt_iff in H; auto.
Qed.

Lemma tuple_lt_false (a b : string * string) :
  tuple_lt a b = false -> pair_le b a.
Proof.
  unfold tuple_lt, pair_le.
  destruct (String.eqb_spec (fst a) (fst b)) as [E|E]; intros H.
  - right. split; [auto|].
    destruct (lex_lt_trichotomy (snd b) (snd a)) as [L|[L|L]]; auto.
    apply str_lt_iff in L. congruence.
  - destruct (lex_lt_trichotomy (fst b) (fst a)) as [L|[L|L]]; auto.
    + now elim E.
    + apply str_lt_iff in L. congruence.
Qed.

Lemma insert_by_key_perm (x : ShiftRecord) (l : list ShiftRecord) :
  Permutation (x :: l) (insert_by_key x l).
Proof.
  induction l as [|y l IH]; cbn [insert_by_key]; [reflexivity|].
  destruct (tuple_lt (sort_key y) (sort_key x)); [|reflexivity].
  rewrite perm_swap. now constructor.
Qed.

Lemma sort_by_key_perm (l : list ShiftRecord) :
  Permutation l (sort_by_key l).
Proof.
  induction l as [|x l IH]; cbn [sort_by_key]; [reflexivity|].
  rewrite <- insert_by_key_perm. now constructor.
Qed.

Lemma insert_by_key_sorted (x : ShiftRecord) (l : list ShiftRecord) :
  StronglySorted key_le l -> StronglySorted key_le (insert_by_key x l).
Proof.
  induction l as [|y l IH]; intros H; cbn [insert_by_key].
  - repeat constructor.
  - apply StronglySorted_inv in H as [Hl Hy].
    destruct (tuple_lt (sort_key y) (sort_key x)) eqn:T.
    + constructor; [now apply IH|].
      apply (Permutation_Forall (insert_by_key_perm x l)).
      constructor; [now apply tuple_lt_true | exact Hy].
    + pose proof (tuple_lt_false _ _ T) as Hxy.
      constructor; [now constructor|].
      constructor; [exact Hxy|].
      eapply Forall_impl; [|exact Hy].
      intros z Hz. eapply pair_le_trans; eauto.
Qed.

Lemma sort_by_key_sorted (l : list ShiftRecord) :
  StronglySorted key_le (sort_by_key l).
Proof.
  induction l as [|x l IH]; cbn [sort_by_key]; [constructor|].
  now apply insert_by_key_sorted.
Qed.

(** In a sorted list an entry that must come strictly first does. *)
Lemma sorted_positions (rows : list ShiftRecord) :
  StronglySorted key_le rows ->
  forall (i j : nat) (x y : ShiftRecord),
    nth_error rows i = Some x -> nth_error rows j = Some y ->
    ~ key_le y x -> (i < j)%nat.
Proof.
  induction 1 as [|z rows Hs IH Hz]; intros i j x y Hi Hj Hn.
  - destruct i; discriminate.
  - destruct i as [|i], j as [|j]; cbn in Hi, Hj.
    + injection Hi as ->. injection Hj as ->. elim Hn.
      right. auto.
    + lia.
    + injection Hj as ->. apply nth_error_In in Hi.
      rewrite Forall_forall in Hz. elim Hn. now apply Hz.
    + apply -> Nat.succ_lt_mono. eapply IH; eauto.
Qed.

Lemma am_before_pm (x y : ShiftRecord) :
  date x = date y -> shift x = "AM" -> shift y = "PM" -> ~ key_le y x.
Proof.
  unfold key_le, pair_le, sort_key. cbn [fst snd]. intros Hd Hx Hy.
  rewrite Hd, Hx, Hy. intros [H|[_ [H|H]]].
  - now apply lex_lt_irrefl in H.
  - apply str_lt_iff in H. discriminate.
  - discriminate.
Qed.

End Order.

(** ** [parse_ics] and the driver *)

Section Driver.
Variable script_dir : string.
Variable fs : string -> file_state.

Lemma print_rows_out (rows : list ShiftRecord) (out : list string) :
  print_rows rows out = (Ok tt, out ++ map format_row rows).
Proof.
  revert out. induction rows as [|r rows IH]; intros out; cbn [print_rows map].
  - unfold io_ret. now rewrite app_nil_r.
  - unfold io_bind, print. rewrite IH, <- app_assoc. reflexivity.
Qed.

Lemma read_and_parse_fst (file_path filename shift_name : string)
    (out : list string) :
  fst (read_and_parse fs file_path filename shift_name out)
  = match fs file_path with
    | Readable content => parse_content content shift_name
    | _ => Ok []
    end.
Proof.
  unfold read_and_parse, parse_content, io_bind, io_lift, io_ret, log, print.
  destruct (fs file_path) as [|err|content]; try reflexivity.
  destruct (for_each_event _ _ _); reflexivity.
Qed.

(** What [parse_ics] returns is the empty list or what the text of one of
    the two candidate files gives. *)
Lemma parse_ics_fst (filename shift_name : string) (out : list string) :
  fst (parse_ics script_dir fs filename shift_name out) = Ok []
  \/ exists content : string,
       fst (parse_ics script_dir fs filename shift_name out)
       = parse_content content shift_name.
Proof.
  unfold parse_ics.
  fold (primary_path script_dir filename). fold FALLBACK_DIR.
  fold (fallback_path filename).
  destruct (path_exists fs (primary_path script_dir filename)); cbn [negb].
  - rewrite read_and_parse_fst. destruct (fs _); eauto.
  - cbv beta iota delta [io_bind log print].
    destruct (path_exists fs (fallback_path filename)); cbn [negb].
    + rewrite read_and_parse_fst. destruct (fs _); eauto.
    + left. reflexivity.
Qed.


Lemma run_unfold :
  run script_dir fs =
  match parse_ics script_dir fs AM_FILE "AM" ["Starting analysis..."] with
  | (Ok am, out1) =>
      match parse_ics script_dir fs PM_FILE "PM" out1 with
      | (Ok pm, out2) =>
          (Ok tt, out2 ++ TABLE_HEADER ++ map format_row (sort_by_key (am ++ pm)))
      | (Raise e, out2) => (Raise e, out2)
      | (OutOfFuel, out2) => (OutOfFuel, out2)
      end
  | (Raise e, out1) => (Raise e, out1)
  | (OutOfFuel, out1) => (OutOfFuel, out1)
  end.
Proof.
  unfold run, driver. unfold io_bind at 1. unfold print at 1. cbn [app].
  unfold io_bind at 1. fold AM_FILE.
  destruct (parse_ics script_dir fs AM_FILE "AM" _) as [[am|e|] out1];
    try reflexivity.
  unfold io_bind at 1. fold PM_FILE.
  destruct (parse_ics script_dir fs PM_FILE "PM" out1) as [[pm|e|] out2];
    try reflexivity.
  unfold io_bind, print. rewrite print_rows_out.
  cbn [app]. unfold TABLE_HEADER. rewrite <- !app_assoc. reflexivity.
Qed.

End Driver.

(** ** The claims about [parse_ics] and the report *)

Section ReportClaims.

(** C2, as stated, fails: an event that starts on Saturday 28 February 2026
    and ends on 9 March makes [parse_ics] return a record dated 1 March,
    and no date of January or February 2026 prints as that. *)
Lemma C2_counterexample :
  fst (parse_ics sample_dir (fs_single sample_am_path file_feb_to_march)
         AM_FILE "AM" [])
  = Ok [mkrec "2026-02-28" "Sat" "Alice" "AM";
        mkrec "2026-03-01" "Sun" "Alice" "AM";
        mkrec "2026-03-07" "Sat" "Alice" "AM";
        mkrec "2026-03-08" "Sun" "Alice" "AM"]
  /\ PyDatetime.strftime (PyDatetime.mkdt 2026 3 1) = "2026-03-01"
  /\ ~ dated_in_window (mkrec "2026-03-01" "Sun" "Alice" "AM").
Proof.
  split; [vm_compute; reflexivity|]. split; [reflexivity|].
  intros (d & Hv & Hd & Hy & Hm). cbn [date] in Hd.
  unfold PyDatetime.valid, PyDatetime.check_date_fields in Hv.
  PyDatetimeFacts.zbool.
  unfold PyDatetime.strftime in Hd. rewrite Hy in Hd.
  assert (Hc : PyDatetime.month d = 1 \/ PyDatetime.month d = 2) by lia.
  destruct Hc as [Hc|Hc]; rewrite Hc in Hd; cbn in Hd; discriminate Hd.
Qed.

(** C7. When the run completes, what it prints after the table header is
    one row per record of the two sources, in an arrangement sorted
    ascending by the pair (ISO date, shift tag), compared
    lexicographically; in particular a record tagged "AM" comes before a
    record of the same date tagged "PM". *)
Theorem C7_report_sorted (script_dir : string) (fs : string -> file_state)
    (out : list string) :
  run script_dir fs = (Ok tt, out) ->
  exists (am pm : list ShiftRecord) (out1 out2 : list string)
         (rows : list ShiftRecord),
    parse_ics script_dir fs AM_FILE "AM" ["Starting analysis..."] = (Ok am, out1)
    /\ parse_ics script_dir fs PM_FILE "PM" out1 = (Ok pm, out2)
    /\ out = out2 ++ TABLE_HEADER ++ map format_row rows
    /\ Permutation (am ++ pm) rows
    /\ StronglySorted key_le rows
    /\ forall (i j : nat) (x y : ShiftRecord),
         nth_error rows i = Some x -> nth_error rows j = Some y ->
         date x = date y -> shift x = "AM" -> shift y = "PM" ->
         (i < j)%nat.
Proof.
  rewrite run_unfold. intros H.
  destruct (parse_ics script_dir fs AM_FILE "AM" _) as [[am|e|] out1] eqn:Ea;
    try discriminate.
  destruct (parse_ics script_dir fs PM_FILE "PM" out1) as [[pm|e|] out2] eqn:Ep;
    try discriminate.
  injection H as <-.
  exists am, pm, out1, out2, (sort_by_key (am ++ pm)).
  repeat split; auto using sort_by_key_perm, sort_by_key_sorted.
  intros i j x y Hi Hj Hd Hx Hy.
  eapply sorted_positions; eauto using sort_by_key_sorted, am_before_pm.
Qed.

Lemma C7_report_sorted_witness :
  exists (am pm : list ShiftRecord) (out1 out2 : list string)
         (rows : list ShiftRecord),
    parse_ics sample_dir fs_am_pm AM_FILE "AM" ["Starting analysis..."]
    = (Ok am, out1)
    /\ parse_ics sample_dir fs_am_pm PM_FILE "PM" out1 = (Ok pm, out2)
    /\ ["Starting analysis...";
        "[DEBUG] Reading AMR AM Analysts.ics";
        "[DEBUG] Found 2 event blocks";
        "[DEBUG] -> Extracted 2 weekend shifts";
        "[DEBUG] File not found: /repo/backend/scripts/../../migrate/AMR PM Analysts.ics";
        "[DEBUG] Reading AMR PM Analysts.ics";
        "[DEBUG] Found 2 event blocks";
        "[DEBUG] -> Extracted 1 weekend shifts";
        (LF ++ "Date       | Day | Shift | Name")%string;
        "-----------|-----|-------|------";
        "2026-01-03 | Sat | AM    | Alice";
        "2026-01-03 | Sat | PM    | Bob";
        "2026-01-04 | Sun | AM    | Alice"]
       = out2 ++ TABLE_HEADER ++ map format_row rows
    /\ Permutation (am ++ pm) rows
    /\ StronglySorted key_le rows
    /\ forall (i j : nat) (x y : ShiftRecord),
         nth_error rows i = Some x -> nth_error rows j = Some y ->
         date x = date y -> shift x = "AM" -> shift y = "PM" ->
         (i < j)%nat.
Proof.
  apply (C7_report_sorted sample_dir fs_am_pm).
  vm_compute. reflexivity.
Defined.



End ReportClaims.

(** ** How the blocks of a file compose *)

Section Composition.
Import PyStr PyRe PyDatetimeFacts.

Lemma weekend_loop_app (fuel : nat) (summary shift_name : string)
    (end_date : PyDatetime.datetime) :
  forall (current : PyDatetime.datetime) (results : list ShiftRecord),
    weekend_loop fuel summary shift_name end_date current results
    = (c <- weekend_loop fuel summary shift_name end_date current [] ;;
       Ok (results ++ c)).
Proof.
  induction fuel as [|fuel IH]; intros current results; cbn [weekend_loop].
  - reflexivity.
  - destruct (PyDatetime.dt_le current end_date);
      [|cbn [bind]; now rewrite app_nil_r].
    destruct (PyDatetime.add_days current 1) as [c'| |]; cbn [bind];
      try reflexivity.
    destruct ((_ =? 5) || (_ =? 6)).
    + rewrite IH. rewrite (IH c' ([] ++ _)).
      destruct (weekend_loop fuel _ _ _ c' []); cbn [bind]; try reflexivity.
      now rewrite <- app_assoc.
    + apply IH.
Qed.

(** The body of the loop over the blocks only appends: what a block adds
    does not depend on what is already there. *)
Lemma process_block_app (shift_name : string) (results : list ShiftRecord)
    (evt : string) :
  process_block shift_name results evt
  = (c <- block_records shift_name evt ;; Ok (results ++ c)).
Proof.
  unfold block_records, process_block.
  destruct (search_summary evt); [|cbn; now rewrite app_nil_r].
  destruct (search_date "DTSTART" evt); [|cbn; now rewrite app_nil_r].
  destruct (_ || _); [cbn; now rewrite app_nil_r|].
  destruct (PyDatetime.strptime _) as [sd|[]|]; cbn [bind];
    try reflexivity; try (now rewrite app_nil_r).
  destruct (negb _); [cbn; now rewrite app_nil_r|].
  destruct (2 <? _); [cbn; now rewrite app_nil_r|].
  destruct (effective_end sd _) as [last| |]; cbn [bind]; try reflexivity.
  apply weekend_loop_app.
Qed.

Lemma for_each_event_Ok (shift_name : string) (events : list string) :
  forall (results rs : list ShiftRecord),
    for_each_event shift_name results events = Ok rs <->
    exists cs : list (list ShiftRecord),
      Forall2 (fun evt c => block_records shift_name evt = Ok c) events cs
      /\ rs = results ++ List.concat cs.
Proof.
  induction events as [|evt events IH]; intros results rs;
    cbn [for_each_event].
  - split.
    + intros [= <-]. exists []. split; [constructor|].
      cbn. now rewrite app_nil_r.
    + intros (cs & F & ->). inversion F; subst. cbn. now rewrite app_nil_r.
  - rewrite process_block_app.
    destruct (block_records shift_name evt) as [c|e|] eqn:B; cbn [bind].
    + rewrite IH. split.
      * intros (cs & F & ->). exists (c :: cs). split; [now constructor|].
        cbn [List.concat]. now rewrite app_assoc.
      * intros (cs & F & ->). inversion F as [|? c' ? cs' Hc F']; subst.
        rewrite B in Hc. injection Hc as <-.
        exists cs'. split; [exact F'|]. cbn [List.concat]. now rewrite app_assoc.
    + split; [discriminate|]. intros (cs & F & _).
      inversion F; subst. congruence.
    + split; [discriminate|]. intros (cs & F & _).
      inversion F; subst. congruence.
Qed.

Lemma for_each_event_Raise (shift_name : string) (events : list string)
    (ex : exn) :
  forall results : list ShiftRecord,
    for_each_event shift_name results events = Raise ex <->
    exists (before : list string) (evt : string) (after : list string)
           (cs : list (list ShiftRecord)),
      events = before ++ evt :: after
      /\ Forall2 (fun b c => block_records shift_name b = Ok c) before cs
      /\ block_records shift_name evt = Raise ex.
Proof.
  induction events as [|evt events IH]; intros results; cbn [for_each_event].
  - split; [discriminate|]. intros (before & e & after & cs & E & _).
    destruct before; discriminate.
  - rewrite process_block_app.
    destruct (block_records shift_name evt) as [c|e|] eqn:B; cbn [bind].
    + rewrite IH. split.
      * intros (before & e & after & cs & -> & F & R).
        exists (evt :: before), e, after, (c :: cs).
        split; [reflexivity|]. split; [now constructor | exact R].
      * intros (before & e & after & cs & E & F & R).
        destruct before as [|b before]; cbn in E; injection E as <- ->.
        -- congruence.
        -- inversion F; subst. now exists before, e, after, l'.
    + split.
      * intros [= <-]. exists [], evt, events, []. repeat split; auto.
      * intros (before & e' & after & cs & E & F & R).
        destruct before as [|b before]; cbn in E; injection E as <- ->.
        -- congruence.
        -- inversion F; subst. congruence.
    + split; [discriminate|].
      intros (before & e' & after & cs & E & F & R).
      destruct before as [|b before]; cbn in E; injection E as <- ->.
      * congruence.
      * inversion F; subst. congruence.
Qed.

End Composition.

(** ** Further properties of the blocks *)

Section BlockExtras.
Import PyStr PyRe PyDatetimeFacts.

Lemma kept_block_process (shift_name : string) (results : list ShiftRecord)
    (evt summary : string) (sd : PyDatetime.datetime) :
  kept_block evt summary sd ->
  process_block shift_name results evt =
  (end_date <- effective_end sd (search_date "DTEND" evt) ;;
   weekend_loop (loop_fuel end_date sd) summary shift_name end_date sd
     results).
Proof.
  intros (g & st & Hs & -> & Hk & Hd & Hp & Hw).
  now apply (process_block_kept _ _ _ _ st).
Qed.

(** What a block contributes, when it returns: nothing, or the weekend
    days of its range. *)
Lemma block_records_Ok (shift_name evt : string) (c : list ShiftRecord) :
  block_records shift_name evt = Ok c ->
  c = []
  \/ exists (summary : string) (sd last : PyDatetime.datetime),
       kept_block evt summary sd
       /\ effective_end sd (search_date "DTEND" evt) = Ok last
       /\ PyDatetime.valid sd /\ PyDatetime.valid last
       /\ c = map (record_for summary shift_name) (weekend_days sd last).
Proof.
  unfold block_records, process_block.
  destruct (search_summary evt) as [g|] eqn:Hs; [|intros [= <-]; now left].
  destruct (search_date "DTSTART" evt) as [st|] eqn:Hd;
    [|intros [= <-]; now left].
  destruct (contains "OOO" (strip g)) eqn:C1; [intros [= <-]; now left|].
  destruct (contains "+" (strip g)) eqn:C2; [intros [= <-]; now left|].
  cbn [orb].
  destruct (strptime_outcome st) as [[sd Hp]|Hp]; rewrite Hp;
    [|intros [= <-]; now left].
  destruct (Z.eqb_spec (PyDatetime.year sd) 2026) as [Hy|Hy]; cbn [negb];
    [|intros [= <-]; now left].
  destruct (Z.ltb_spec 2 (PyDatetime.month sd)) as [Hm|Hm];
    [intros [= <-]; now left|].
  pose proof (strptime_valid _ _ Hp) as Vs.
  destruct (effective_end sd (search_date "DTEND" evt)) as [last| |] eqn:He;
    cbn [bind]; try discriminate.
  destruct (effective_end_ok _ _ _ Vs Hy He) as [Vl Ml].
  rewrite weekend_loop_total by assumption. cbn [app].
  intros [= <-]. right. exists (strip g), sd, last.
  repeat split; auto.
  exists g, st. repeat split; auto;
    intros H; apply contains_iff in H; congruence.
Qed.

(** X1. The body of the loop raises in two cases only, both on line 63: the
    block passed every filter and its end-date field is no calendar date
    ([ValueError]), or is 0001-01-01 ([OverflowError]).  In particular the
    increment of the loop never overflows. *)
Theorem X1_block_raises_iff (shift_name : string)
    (results : list ShiftRecord) (evt : string) (ex : exn) :
  process_block shift_name results evt = Raise ex <->
  exists (summary end_str : string) (sd : PyDatetime.datetime),
    kept_block evt summary sd
    /\ search_date "DTEND" evt = Some end_str
    /\ ((PyDatetime.strptime end_str = Raise ValueError /\ ex = ValueError)
        \/ (PyDatetime.strptime end_str = Ok (PyDatetime.mkdt 1 1 1)
            /\ ex = OverflowError)).
Proof.
  split.
  - intros H. apply process_block_raises in H
      as (g & st & en & sd & Hs & Hk & Hd & Hp & Hw & He & Hc).
    exists (strip g), en, sd. repeat split; auto.
    now exists g, st.
  - intros (summary & en & sd & K & He & Hc).
    rewrite (kept_block_process _ _ _ _ _ K), He. cbn [effective_end].
    destruct Hc as [[Hp ->]|[Hp ->]]; rewrite Hp; reflexivity.
Qed.

Lemma X1_block_raises_iff_witness :
  process_block "AM" [] block_sat_end_feb30 = Raise ValueError
  /\ process_block "AM" [] block_end_min = Raise OverflowError.
Proof.
  assert (K : forall evt, search_summary evt = Some "Alice" ->
                search_date "DTSTART" evt = Some "20260103" ->
                kept_block evt "Alice" (PyDatetime.mkdt 2026 1 3)).
  { intros evt Hs Hd. exists "Alice", "20260103".
    repeat split; auto; try (cbn; lia);
      intros H; apply contains_iff in H; discriminate H. }
  split.
  - apply (proj2 (X1_block_raises_iff "AM" [] block_sat_end_feb30 ValueError)).
    exists "Alice", "20260230", (PyDatetime.mkdt 2026 1 3).
    split; [apply K; reflexivity|]. split; [reflexivity|].
    left. split; reflexivity.
  - apply (proj2 (X1_block_raises_iff "AM" [] block_end_min OverflowError)).
    exists "Alice", "00010101", (PyDatetime.mkdt 2026 1 3).
    split; [apply K; reflexivity|]. split; [reflexivity|].
    right. split; reflexivity.
Defined.

(** X2. The list [parse_ics] builds from a text is the concatenation, in
    file order, of what each event block contributes on its own; and the
    text raises exactly when one of its blocks does, with the exception of
    the first such block: the records of the blocks before it are lost and
    the blocks after it are not looked at. *)
Theorem X2_blocks_compose (content shift_name : string) :
  (forall rs : list ShiftRecord,
      parse_content content shift_name = Ok rs <->
      exists cs : list (list ShiftRecord),
        Forall2 (fun evt c => block_records shift_name evt = Ok c)
          (event_blocks content) cs
        /\ rs = List.concat cs)
  /\ (forall ex : exn,
        parse_content content shift_name = Raise ex <->
        exists (before : list string) (evt : string) (after : list string)
               (cs : list (list ShiftRecord)),
          event_blocks content = before ++ evt :: after
          /\ Forall2 (fun b c => block_records shift_name b = Ok c) before cs
          /\ block_records shift_name evt = Raise ex).
Proof.
  unfold parse_content, event_blocks. split.
  - intros rs. apply for_each_event_Ok.
  - intros ex. apply for_each_event_Raise.
Qed.

End BlockExtras.

(** ** Where a record comes from *)

Section Origin.
Import PyStr PyRe PyDatetimeFacts.

Lemma lstrip_first (s : string) (c : ascii) :
  first_char (lstrip s) = Some c -> isspace c = false.
Proof.
  induction s as [|x s IH]; cbn [lstrip]; [discriminate|].
  destruct (isspace x) eqn:E; [exact IH|].
  cbn. now intros [= <-].
Qed.

Lemma rstrip_first (s : string) (c : ascii) :
  first_char (rstrip s) = Some c -> first_char s = Some c.
Proof.
  destruct s as [|x s]; cbn [rstrip]; [discriminate|].
  destruct (rstrip s); [destruct (isspace x); [discriminate|]|]; cbn; auto.
Qed.

Lemma rstrip_last (s : string) (c : ascii) :
  last_char (rstrip s) = Some c -> isspace c = false.
Proof.
  induction s as [|x s IH]; cbn [rstrip]; [discriminate|].
  destruct (rstrip s) as [|y r] eqn:R.
  - destruct (isspace x) eqn:E; [discriminate|].
    cbn. now intros [= <-].
  - cbn [last_char]. exact IH.
Qed.

Lemma lstrip_chars (s : string) (c : ascii) :
  In c (list_ascii_of_string (lstrip s)) -> In c (list_ascii_of_string s).
Proof.
  induction s as [|x s IH]; cbn [lstrip]; [auto|].
  destruct (isspace x); [|auto]. intros H. right. auto.
Qed.

Lemma rstrip_chars (s : string) (c : ascii) :
  In c (list_ascii_of_string (rstrip s)) -> In c (list_ascii_of_string s).
Proof.
  induction s as [|x s IH]; cbn [rstrip]; [auto|].
  destruct (rstrip s) as [|y r].
  - destruct (isspace x); cbn; [tauto|]. intros [H|[]]. now left.
  - cbn [list_ascii_of_string]. intros [H|H]; [now left|right; auto].
Qed.

Lemma dot_star_chars (s : string) (c : ascii) :
  In c (list_ascii_of_string (dot_star s)) -> code c <> 10.
Proof.
  induction s as [|x s IH]; cbn [dot_star]; [intros []|].
  destruct (Z.eqb_spec (code x) 10); [intros []|].
  cbn. intros [<-|H]; auto.
Qed.

Lemma search_summary_chars (evt g : string) (c : ascii) :
  search_summary evt = Some g ->
  In c (list_ascii_of_string g) -> code c <> 10.
Proof.
  induction evt as [|x evt IH]; cbn [search_summary].
  - cbn. discriminate.
  - destruct (drop_prefix "SUMMARY:" (String x evt)).
    + intros [= <-]. apply dot_star_chars.
    + exact IH.
Qed.

Lemma kept_block_clean (evt summary : string) (sd : PyDatetime.datetime) :
  kept_block evt summary sd -> clean_title summary.
Proof.
  intros (g & st & Hs & -> & [K1 K2] & _). unfold clean_title, strip.
  repeat split; auto.
  - intros c H. apply rstrip_first in H. now apply lstrip_first in H.
  - intros c H. now apply rstrip_last in H.
  - intros c H. apply rstrip_chars, lstrip_chars in H.
    now apply (search_summary_chars evt g).
Qed.

(** Every record of a text comes from one of its blocks: the block passed
    the filters and the record is for a weekend day of its range. *)
Lemma parse_content_origin (content shift_name : string)
    (rs : list ShiftRecord) (r : ShiftRecord) :
  parse_content content shift_name = Ok rs -> In r rs ->
  exists (evt summary : string) (sd last d : PyDatetime.datetime),
    In evt (event_blocks content)
    /\ kept_block evt summary sd
    /\ effective_end sd (search_date "DTEND" evt) = Ok last
    /\ PyDatetime.valid sd /\ PyDatetime.valid last
    /\ In d (weekend_days sd last)
    /\ r = record_for summary shift_name d.
Proof.
  unfold parse_content. fold (event_blocks content).
  intros H Hr. apply for_each_event_Ok in H as (cs & F & ->).
  cbn [app] in Hr. apply in_concat in Hr as (c & Hc & Hrc).
  revert Hc. induction F as [|evt c' events cs' B F IH]; [intros []|].
  intros [->|Hc].
  - apply block_records_Ok in B
      as [->|(summary & sd & last & K & He & Vs & Vl & ->)]; [destruct Hrc|].
    apply in_map_iff in Hrc as (d & <- & Hd).
    exists evt, summary, sd, last, d. repeat split; auto. now left.
  - destruct (IH Hc) as (e & su & sd & la & d & Hin & Rest).
    exists e, su, sd, la, d. split; [now right | exact Rest].
Qed.

Lemma parse_ics_content (script_dir : string) (fs : string -> file_state)
    (filename shift_name : string) (out : list string)
    (rs : list ShiftRecord) (r : ShiftRecord) :
  fst (parse_ics script_dir fs filename shift_name out) = Ok rs -> In r rs ->
  exists content : string, parse_content content shift_name = Ok rs.
Proof.
  intros H Hr.
  destruct (parse_ics_fst script_dir fs filename shift_name out)
    as [E|[content E]]; rewrite E in H.
  - injection H as <-. destruct Hr.
  - now exists content.
Qed.

(** X3. The name of every record [parse_ics] returns is a trimmed title: it
    neither begins nor ends with white space, holds no line feed, and holds
    neither "OOO" nor "+". *)
Theorem X3_names_are_clean (script_dir : string) (fs : string -> file_state)
    (filename shift_name : string) (out : list string)
    (rs : list ShiftRecord) :
  fst (parse_ics script_dir fs filename shift_name out) = Ok rs ->
  forall r, In r rs -> clean_title (name r).
Proof.
  intros H r Hr.
  destruct (parse_ics_content _ _ _ _ _ _ _ H Hr) as [content Hc].
  destruct (parse_content_origin _ _ _ _ Hc Hr)
    as (evt & summary & sd & last & d & _ & K & _ & _ & _ & _ & ->).
  cbn [record_for name]. now apply (kept_block_clean evt summary sd).
Qed.

Lemma X3_names_are_clean_witness :
  clean_title "Alice Smith".
Proof.
  apply (X3_names_are_clean sample_dir
           (fs_single sample_am_path file_padded_title) AM_FILE "AM" []
           [mkrec "2026-01-03" "Sat" "Alice Smith" "AM"]
           eq_refl (mkrec "2026-01-03" "Sat" "Alice Smith" "AM")).
  left. reflexivity.
Defined.

End Origin.

(** ** ISO dates and the calendar *)

Section IsoDates.
Import PyStr PyRe PyDatetimeFacts.

Lemma code_digit_char (n : Z) : code (digit_char n) = 48 + n mod 10.
Proof.
  unfold code, digit_char.
  pose proof (Z.mod_pos_bound n 10 ltac:(lia)) as Hb.
  rewrite N_ascii_embedding by lia. lia.
Qed.

Lemma digits4 (y : Z) :
  0 <= y <= 9999 ->
  y = 1000 * ((y / 1000) mod 10) + 100 * ((y / 100) mod 10)
      + 10 * ((y / 10) mod 10) + y mod 10.
Proof. intros H. Z.div_mod_to_equations. lia. Qed.

Lemma digits2 (m : Z) :
  0 <= m <= 99 -> m = 10 * ((m / 10) mod 10) + m mod 10.
Proof. intros H. Z.div_mod_to_equations. lia. Qed.

Lemma days_in_month_le (y m : Z) :
  1 <= m <= 12 -> PyDatetime.days_in_month y m <= 31.
Proof.
  intros Hm. unfold PyDatetime.days_in_month.
  each_month m Hm; destruct (PyDatetime.is_leap y); calc_tbl; lia.
Qed.

Lemma valid_fields (d : PyDatetime.datetime) :
  PyDatetime.valid d ->
  1 <= PyDatetime.year d <= 9999 /\ 1 <= PyDatetime.month d <= 12
  /\ 1 <= PyDatetime.day d <= 31.
Proof.
  unfold PyDatetime.valid, PyDatetime.check_date_fields,
    PyDatetime.MINYEAR, PyDatetime.MAXYEAR.
  intros H. zbool.
  pose proof (days_in_month_le (PyDatetime.year d) (PyDatetime.month d)
                ltac:(lia)).
  lia.
Qed.

(** Comparing two ISO dates as strings is comparing the dates. *)
Lemma strftime_str_lt (a b : PyDatetime.datetime) :
  PyDatetime.valid a -> PyDatetime.valid b ->
  str_lt (PyDatetime.strftime a) (PyDatetime.strftime b)
  = negb (PyDatetime.dt_le b a).
Proof.
  intros Va Vb.
  destruct (valid_fields a Va) as (Ya & Ma & Da).
  destruct (valid_fields b Vb) as (Yb & Mb & Db).
  pose proof (digits4 (PyDatetime.year a) ltac:(lia)) as Ea.
  pose proof (digits4 (PyDatetime.year b) ltac:(lia)) as Eb.
  pose proof (digits2 (PyDatetime.month a) ltac:(lia)) as Fa.
  pose proof (digits2 (PyDatetime.month b) ltac:(lia)) as Fb.
  pose proof (digits2 (PyDatetime.day a) ltac:(lia)) as Ga.
  pose proof (digits2 (PyDatetime.day b) ltac:(lia)) as Gb.
  unfold PyDatetime.strftime, pad4, pad2. cbn [append str_lt].
  rewrite !code_digit_char.
  change (code "-") with 45. cbn [Z.ltb Z.compare Pos.compare Pos.compare_cont].
  unfold PyDatetime.dt_le.
  pose proof (Z.mod_pos_bound (PyDatetime.year a / 1000) 10 eq_refl).
  pose proof (Z.mod_pos_bound (PyDatetime.year a / 100) 10 eq_refl).
  pose proof (Z.mod_pos_bound (PyDatetime.year a / 10) 10 eq_refl).
  pose proof (Z.mod_pos_bound (PyDatetime.year a) 10 eq_refl).
  pose proof (Z.mod_pos_bound (PyDatetime.year b / 1000) 10 eq_refl).
  pose proof (Z.mod_pos_bound (PyDatetime.year b / 100) 10 eq_refl).
  pose proof (Z.mod_pos_bound (PyDatetime.year b / 10) 10 eq_refl).
  pose proof (Z.mod_pos_bound (PyDatetime.year b) 10 eq_refl).
  pose proof (Z.mod_pos_bound (PyDatetime.month a / 10) 10 eq_refl).
  pose proof (Z.mod_pos_bound (PyDatetime.month a) 10 eq_refl).
  pose proof (Z.mod_pos_bound (PyDatetime.month b / 10) 10 eq_refl).
  pose proof (Z.mod_pos_bound (PyDatetime.month b) 10 eq_refl).
  pose proof (Z.mod_pos_bound (PyDatetime.day a / 10) 10 eq_refl).
  pose proof (Z.mod_pos_bound (PyDatetime.day a) 10 eq_refl).
  pose proof (Z.mod_pos_bound (PyDatetime.day b / 10) 10 eq_refl).
  pose proof (Z.mod_pos_bound (PyDatetime.day b) 10 eq_refl).
  generalize dependent ((PyDatetime.year a / 1000) mod 10).
  generalize dependent ((PyDatetime.year a / 100) mod 10).
  generalize dependent ((PyDatetime.year a / 10) mod 10).
  generalize dependent (PyDatetime.year a mod 10).
  generalize dependent ((PyDatetime.year b / 1000) mod 10).
  generalize dependent ((PyDatetime.year b / 100) mod 10).
  generalize dependent ((PyDatetime.year b / 10) mod 10).
  generalize dependent (PyDatetime.year b mod 10).
  generalize dependent ((PyDatetime.month a / 10) mod 10).
  generalize dependent (PyDatetime.month a mod 10).
  generalize dependent ((PyDatetime.month b / 10) mod 10).
  generalize dependent (PyDatetime.month b mod 10).
  generalize dependent ((PyDatetime.day a / 10) mod 10).
  generalize dependent (PyDatetime.day a mod 10).
  generalize dependent ((PyDatetime.day b / 10) mod 10).
  generalize dependent (PyDatetime.day b mod 10).
  intros.
  repeat match goal with
  | |- (if ?x <? ?y then _ else _) = _ => destruct (Z.ltb_spec x y)
  end;
  repeat match goal with
  | |- _ = negb (if ?x <? ?y then _ else _) => destruct (Z.ltb_spec x y)
  | |- _ = negb (?x <=? ?y) => destruct (Z.leb_spec x y)
  end; cbn [negb]; try reflexivity; exfalso; lia.
Qed.

Lemma strftime_lex_lt (a b : PyDatetime.datetime) :
  PyDatetime.valid a -> PyDatetime.valid b ->
  lex_lt (PyDatetime.strftime a) (PyDatetime.strftime b)
  <-> PyDatetime.toordinal a < PyDatetime.toordinal b.
Proof.
  intros Va Vb.
  rewrite <- str_lt_iff, (strftime_str_lt a b Va Vb),
    (dt_le_toordinal b a Vb Va), negb_true_iff, Z.leb_gt.
  reflexivity.
Qed.

Lemma dt_le_year (a b : PyDatetime.datetime) :
  PyDatetime.dt_le a b = true -> PyDatetime.year a <= PyDatetime.year b.
Proof.
  unfold PyDatetime.dt_le.
  destruct (Z.ltb_spec (PyDatetime.year a) (PyDatetime.year b)); [lia|].
  destruct (Z.ltb_spec (PyDatetime.year b) (PyDatetime.year a));
    [discriminate | lia].
Qed.

Lemma weekend_days_sorted (sd last : PyDatetime.datetime) :
  PyDatetime.valid sd -> PyDatetime.valid last ->
  StronglySorted
    (fun a b => PyDatetime.toordinal a < PyDatetime.toordinal b)
    (weekend_days sd last).
Proof.
  intros Vs Vl. unfold weekend_days.
  pose proof (toordinal_range _ Vs) as Rs.
  pose proof (toordinal_range _ Vl) as Rl.
  set (k := Z.to_nat _).
  assert (Hk : PyDatetime.toordinal sd + Z.of_nat k - 1
               <= PyDatetime.MAXORDINAL) by lia.
  assert (H1 : 1 <= PyDatetime.toordinal sd) by lia.
  clearbody k. clear Rs Rl Vs Vl.
  revert Hk H1. generalize (PyDatetime.toordinal sd).
  induction k as [|k IH]; intros a Hk H1.
  - constructor.
  - rewrite ordinals_from_S. cbn [map filter].
    assert (S' : StronglySorted
                   (fun a b => PyDatetime.toordinal a < PyDatetime.toordinal b)
                   (filter is_weekend
                      (map PyDatetime.fromordinal (ordinals_from (a + 1) k))))
      by (apply IH; lia).
    destruct (is_weekend (PyDatetime.fromordinal a)); [|exact S'].
    constructor; [exact S'|].
    apply Forall_forall. intros d Hd.
    apply filter_In in Hd as [Hd _].
    apply in_map_iff in Hd as (o & <- & Ho).
    apply in_ordinals_from in Ho.
    rewrite !toordinal_fromordinal by lia. lia.
Qed.

Lemma StronglySorted_map {A B : Type} (R : A -> A -> Prop)
    (Q : B -> B -> Prop) (f : A -> B) (l : list A) :
  (forall a b, In a l -> In b l -> R a b -> Q (f a) (f b)) ->
  StronglySorted R l -> StronglySorted Q (map f l).
Proof.
  intros H S. induction S as [|a l S IH F]; cbn [map]; constructor.
  - apply IH. intros x y Hx Hy. apply H; now right.
  - apply Forall_forall. intros y Hy.
    apply in_map_iff in Hy as (x & <- & Hx).
    apply H; [now left | now right |].
    rewrite Forall_forall in F. now apply F.
Qed.

(** X4. For two calendar dates of four-digit years, the ISO strings
    [strftime] prints are in lexicographic order exactly when the dates are
    in calendar order: sorting by the [date] string sorts by day. *)
Theorem X4_iso_order_is_calendar_order (a b : PyDatetime.datetime) :
  PyDatetime.valid a -> PyDatetime.valid b ->
  1000 <= PyDatetime.year a -> 1000 <= PyDatetime.year b ->
  (lex_lt (PyDatetime.strftime a) (PyDatetime.strftime b)
   <-> PyDatetime.toordinal a < PyDatetime.toordinal b)
  /\ (PyDatetime.strftime a = PyDatetime.strftime b <-> a = b).
Proof.
  intros Va Vb _ _. split; [now apply strftime_lex_lt|].
  split; [|now intros ->].
  intros E. apply toordinal_inj; auto.
  destruct (Z.lt_trichotomy (PyDatetime.toordinal a) (PyDatetime.toordinal b))
    as [L|[L|L]]; [|exact L|];
    apply strftime_lex_lt in L; auto; rewrite E in L;
    now apply lex_lt_irrefl in L.
Qed.

Lemma X4_iso_order_is_calendar_order_witness :
  (lex_lt "2026-01-31" "2026-02-01" <-> 739647 < 739648)
  /\ ("2026-01-31" = "2026-02-01"
      <-> PyDatetime.mkdt 2026 1 31 = PyDatetime.mkdt 2026 2 1).
Proof.
  apply (X4_iso_order_is_calendar_order
           (PyDatetime.mkdt 2026 1 31) (PyDatetime.mkdt 2026 2 1));
    try reflexivity; cbn; lia.
Defined.

(** X6. The records one event block contributes are in strictly increasing
    order of their date strings: a block never yields two records for the
    same day, and yields them in calendar order. *)
Theorem X6_block_records_increasing (shift_name evt : string)
    (c : list ShiftRecord) :
  block_records shift_name evt = Ok c ->
  StronglySorted date_before c /\ NoDup (map date c).
Proof.
  intros H.
  assert (S : StronglySorted date_before c).
  { apply block_records_Ok in H
      as [->|(summary & sd & last & K & He & Vs & Vl & ->)]; [constructor|].
    apply (StronglySorted_map
             (fun a b => PyDatetime.toordinal a < PyDatetime.toordinal b));
      [|now apply weekend_days_sorted].
    intros a b Ha Hb L.
    apply weekend_days_In in Ha as (Va & _); auto.
    apply weekend_days_In in Hb as (Vb & _); auto.
    unfold date_before. cbn [record_for date]. now apply strftime_lex_lt. }
  split; [exact S|].
  clear H. induction S as [|x l S IH F]; cbn [map]; constructor; auto.
  intros Hin. apply in_map_iff in Hin as (y & E & Hy).
  rewrite Forall_forall in F. specialize (F y Hy).
  unfold date_before in F. rewrite E in F. now apply lex_lt_irrefl in F.
Qed.

Lemma X6_block_records_increasing_witness :
  StronglySorted date_before
    [mkrec "2026-01-03" "Sat" "Alice" "AM";
     mkrec "2026-01-04" "Sun" "Alice" "AM";
     mkrec "2026-01-10" "Sat" "Alice" "AM";
     mkrec "2026-01-11" "Sun" "Alice" "AM"]
  /\ NoDup ["2026-01-03"; "2026-01-04"; "2026-01-10"; "2026-01-11"].
Proof.
  apply (X6_block_records_increasing "AM" block_two_weekends).
  vm_compute. reflexivity.
Defined.

End IsoDates.

(** ** Further properties of [parse_ics] and the report *)

Section ReportExtras.
Import PyStr PyRe PyDatetimeFacts.

Lemma parse_ics_record_date (script_dir : string)
    (fs : string -> file_state) (filename shift_name : string)
    (out : list string) (rs : list ShiftRecord) (r : ShiftRecord) :
  fst (parse_ics script_dir fs filename shift_name out) = Ok rs -> In r rs ->
  exists d : PyDatetime.datetime,
    PyDatetime.valid d /\ 2026 <= PyDatetime.year d
    /\ date r = PyDatetime.strftime d.
Proof.
  intros H Hr.
  destruct (parse_ics_content _ _ _ _ _ _ _ H Hr) as [content Hc].
  destruct (parse_content_origin _ _ _ _ Hc Hr)
    as (evt & summary & sd & last & d & _ & K & _ & Vs & Vl & Hd & ->).
  apply weekend_days_In in Hd as (Vd & L & _); auto.
  destruct K as (g & st & _ & _ & _ & _ & _ & Hy & _).
  apply dt_le_year in L. exists d. repeat split; auto. lia.
Qed.

(** X5. When the run completes, every row of the table carries the ISO
    string of a calendar date of 2026 or later, and the rows are in
    calendar order: a row for an earlier day is printed before a row for a
    later day. *)
Theorem X5_report_chronological (script_dir : string)
    (fs : string -> file_state) (out : list string) :
  run script_dir fs = (Ok tt, out) ->
  exists (logs : list string) (rows : list ShiftRecord),
    out = logs ++ TABLE_HEADER ++ map format_row rows
    /\ (forall x, In x rows ->
          exists d : PyDatetime.datetime,
            PyDatetime.valid d /\ 2026 <= PyDatetime.year d
            /\ date x = PyDatetime.strftime d)
    /\ forall (i j : nat) (x y : ShiftRecord) (dx dy : PyDatetime.datetime),
         nth_error rows i = Some x -> nth_error rows j = Some y ->
         PyDatetime.valid dx -> PyDatetime.valid dy ->
         date x = PyDatetime.strftime dx -> date y = PyDatetime.strftime dy ->
         PyDatetime.toordinal dx < PyDatetime.toordinal dy ->
         (i < j)%nat.
Proof.
  rewrite run_unfold. intros H.
  destruct (parse_ics script_dir fs AM_FILE "AM" _) as [[am|e|] out1] eqn:Ea;
    try discriminate.
  destruct (parse_ics script_dir fs PM_FILE "PM" out1) as [[pm|e|] out2] eqn:Ep;
    try discriminate.
  injection H as <-.
  exists out2, (sort_by_key (am ++ pm)). split; [reflexivity|]. split.
  - intros x Hx.
    apply (Permutation_in _ (Permutation_sym (sort_by_key_perm _))) in Hx.
    apply in_app_or in Hx as [Hx|Hx].
    + apply (parse_ics_record_date script_dir fs AM_FILE "AM"
               ["Starting analysis..."] am); [now rewrite Ea | exact Hx].
    + apply (parse_ics_record_date script_dir fs PM_FILE "PM" out1 pm);
        [now rewrite Ep | exact Hx].
  - intros i j x y dx dy Hi Hj Vx Vy Ex Ey L.
    apply (sorted_positions _ (sort_by_key_sorted (am ++ pm)) i j x y Hi Hj).
    apply (strftime_lex_lt dx dy Vx Vy) in L. rewrite <- Ex, <- Ey in L.
    unfold key_le, pair_le, sort_key. cbn [fst snd].
    intros [B|[E _]].
    + apply (lex_lt_irrefl (date x)). eapply lex_lt_trans; eauto.
    + rewrite E in L. now apply lex_lt_irrefl in L.
Qed.

Lemma X5_report_chronological_witness :
  exists (logs : list string) (rows : list ShiftRecord),
    snd (run sample_dir fs_am_pm) = logs ++ TABLE_HEADER ++ map format_row rows
    /\ (forall x, In x rows ->
          exists d : PyDatetime.datetime,
            PyDatetime.valid d /\ 2026 <= PyDatetime.year d
            /\ date x = PyDatetime.strftime d)
    /\ forall (i j : nat) (x y : ShiftRecord) (dx dy : PyDatetime.datetime),
         nth_error rows i = Some x -> nth_error rows j = Some y ->
         PyDatetime.valid dx -> PyDatetime.valid dy ->
         date x = PyDatetime.strftime dx -> date y = PyDatetime.strftime dy ->
         PyDatetime.toordinal dx < PyDatetime.toordinal dy ->
         (i < j)%nat.
Proof.
  apply (X5_report_chronological sample_dir fs_am_pm).
  vm_compute. reflexivity.
Defined.

(** X7. Which file [parse_ics] reads: the one at the primary path whenever
    something is there, and the one at the fallback path only when nothing
    is at the primary path.  Something that cannot be read gives the empty
    list; in particular an unreadable primary file is not replaced by the
    fallback. *)
Theorem X7_path_precedence (script_dir : string) (fs : string -> file_state)
    (filename shift_name : string) (out : list string) :
  fst (parse_ics script_dir fs filename shift_name out)
  = match fs (primary_path script_dir filename) with
    | Readable content => parse_content content shift_name
    | Unreadable _ => Ok []
    | Absent =>
        match fs (fallback_path filename) with
        | Readable content => parse_content content shift_name
        | _ => Ok []
        end
    end.
Proof.
  unfold parse_ics, path_exists.
  fold (primary_path script_dir filename). fold FALLBACK_DIR.
  fold (fallback_path filename).
  destruct (fs (primary_path script_dir filename)) eqn:P; cbn [negb].
  - cbv beta iota delta [io_bind log print].
    destruct (fs (fallback_path filename)) eqn:F; cbn [negb];
      [reflexivity | |]; rewrite read_and_parse_fst, F; reflexivity.
  - rewrite read_and_parse_fst, P. reflexivity.
  - rewrite read_and_parse_fst, P. reflexivity.
Qed.

Lemma X7_path_precedence_witness :
  fst (parse_ics sample_dir fs_unreadable_primary AM_FILE "AM" []) = Ok []
  /\ fst (parse_ics sample_dir fs_am_pm PM_FILE "PM" [])
     = Ok [mkrec "2026-01-03" "Sat" "Bob" "PM"].
Proof.
  split.
  - exact (X7_path_precedence sample_dir fs_unreadable_primary AM_FILE "AM" []).
  - exact (X7_path_precedence sample_dir fs_am_pm PM_FILE "PM" []).
Defined.

Lemma parse_ics_logs (script_dir : string) (fs : string -> file_state)
    (filename shift_name : string) (out : list string) :
  exists logs : list string,
    snd (parse_ics script_dir fs filename shift_name out) = out ++ logs
    /\ Forall is_debug_line logs
    /\ (2 <= List.length logs <= 4)%nat.
Proof.
  unfold parse_ics, read_and_parse, path_exists, is_debug_line.
  cbv beta iota delta [io_bind log print io_lift io_ret].
  destruct (fs (path_join script_dir [MIGRATE_DIR; filename])); cbn [negb];
    [destruct (fs (path_join _ [filename])); cbn [negb] | |];
    try destruct (for_each_event _ _ _); cbn [snd];
    eexists; (split; [repeat rewrite <- app_assoc; cbn [app]; reflexivity|]);
    (split; [repeat constructor | cbn; lia]).
Qed.

(** X8. [parse_ics] only adds to what has been printed, between two and
    four lines, each marked [[DEBUG] ]. *)
Theorem X8_parse_ics_logs (script_dir : string) (fs : string -> file_state)
    (filename shift_name : string) (out : list string) :
  exists logs : list string,
    snd (parse_ics script_dir fs filename shift_name out) = out ++ logs
    /\ Forall is_debug_line logs
    /\ (2 <= List.length logs <= 4)%nat.
Proof. apply parse_ics_logs. Qed.

(** X9. What a run prints: the opening line, then debug lines only, then
    the table.  The table is there, header first, exactly when the run
    completes; a run that raises prints no part of it. *)
Theorem X9_run_output_shape (script_dir : string) (fs : string -> file_state) :
  exists (logs table : list string),
    snd (run script_dir fs) = "Starting analysis..." :: logs ++ table
    /\ Forall is_debug_line logs
    /\ match fst (run script_dir fs) with
       | Ok _ => exists rows : list ShiftRecord,
                   table = TABLE_HEADER ++ map format_row rows
       | _ => table = []
       end.
Proof.
  rewrite run_unfold.
  destruct (parse_ics_logs script_dir fs AM_FILE "AM" ["Starting analysis..."])
    as (l1 & E1 & F1 & _).
  destruct (parse_ics script_dir fs AM_FILE "AM" _) as [r1 out1].
  cbn [snd] in E1. subst out1.
  destruct r1 as [am|e|];
    [| exists l1, []; rewrite app_nil_r; repeat split; auto ..].
  destruct (parse_ics_logs script_dir fs PM_FILE "PM"
              (["Starting analysis..."] ++ l1)) as (l2 & E2 & F2 & _).
  destruct (parse_ics script_dir fs PM_FILE "PM" _) as [r2 out2].
  cbn [snd] in E2. subst out2.
  assert (F : Forall is_debug_line (l1 ++ l2)) by (apply Forall_app; auto).
  destruct r2 as [pm|e|]; cbn [fst snd].
  - exists (l1 ++ l2), (TABLE_HEADER ++ map format_row (sort_by_key (am ++ pm))).
    split; [cbn [app]; rewrite ?app_assoc; reflexivity|]. split; [exact F|].
    now exists (sort_by_key (am ++ pm)).
  - exists (l1 ++ l2), []. rewrite app_nil_r. cbn [app].
    rewrite ?app_assoc. repeat split; auto.
  - exists (l1 ++ l2), []. rewrite app_nil_r. cbn [app].
    rewrite ?app_assoc. repeat split; auto.
Qed.

End ReportExtras.

(** ** Splitting the file into blocks *)

Section SplitExtras.
Import PyStr PyRe.

Lemma startswith_app (p a b : string) :
  startswith p a = true -> startswith p (a ++ b) = true.
Proof.
  intros H. apply startswith_iff in H as [t ->].
  apply startswith_iff. exists (t ++ b)%string. apply append_assoc.
Qed.

Lemma split_absent (sep s : string) :
  ~ occurs_in sep s -> split sep s = [s].
Proof.
  unfold split. induction s as [|c s IH]; intros H; cbn [split_from].
  - reflexivity.
  - destruct (startswith sep (String c s)) eqn:E.
    + elim H. apply contains_iff. cbn [contains]. now rewrite E.
    + rewrite IH; [reflexivity|].
      intros O. apply H. apply contains_iff. cbn [contains].
      apply contains_iff in O. rewrite O. apply orb_true_r.
Qed.

Lemma split_head_prefix (sep s seg : string) (rest : list string) :
  sep <> "" -> split_from sep 0 s = seg :: rest ->
  exists t : string, s = (seg ++ t)%string.
Proof.
  intros Hsep E. pose proof (split_join sep s Hsep) as J.
  unfold split in J. rewrite E in J.
  destruct rest as [|seg' rest]; cbn [String.concat] in J.
  - exists "". now rewrite append_nil_r.
  - eexists. symmetry. exact J.
Qed.

Lemma split_pieces_free (sep s : string) :
  sep <> "" -> Forall (fun piece => ~ occurs_in sep piece) (split sep s).
Proof.
  intros Hsep. unfold split.
  remember (String.length s) as n eqn:Hn.
  assert (Hle : (String.length s <= n)%nat) by lia. clear Hn.
  revert s Hle. induction n as [|n IH]; intros [|c s] Hle; cbn in Hle;
    try lia.
  - constructor; [|constructor]. intros (pre & post & E).
    destruct pre; [|discriminate]. destruct sep; [now elim Hsep|discriminate].
  - constructor; [|constructor]. intros (pre & post & E).
    destruct pre; [|discriminate]. destruct sep; [now elim Hsep|discriminate].
  - cbn [split_from].
    destruct (startswith sep (String c s)) eqn:E.
    + apply startswith_iff in E as [t Ht].
      destruct sep as [|a sep']; [now elim Hsep|].
      cbn [append] in Ht. injection Ht as -> ->.
      cbn [String.length].
      replace (S (String.length sep') - 1)%nat with (String.length sep') by lia.
      rewrite split_from_skip. constructor.
      * intros (pre & post & E). destruct pre; discriminate.
      * apply IH. rewrite append_length in Hle. lia.
    + assert (F : Forall (fun piece => ~ occurs_in sep piece)
                    (split_from sep 0 s)) by (apply IH; lia).
      destruct (split_from sep 0 s) as [|seg rest] eqn:Es.
      * exfalso. now apply (split_from_nonempty sep 0 s).
      * inversion F as [|? ? Hseg Hrest]; subst.
        constructor; [|exact Hrest].
        intros O. apply contains_iff in O. cbn [contains] in O.
        apply orb_prop in O as [O|O].
        -- destruct (split_head_prefix sep s seg rest Hsep Es) as [t ->].
           change (String c (seg ++ t)) with (String c seg ++ t)%string in E.
           rewrite (startswith_app _ _ _ O) in E. discriminate.
        -- apply contains_iff in O. contradiction.
Qed.

(** X10. Cutting the text at the marker loses nothing and leaves no marker
    behind: joining the pieces with [BEGIN:VEVENT] gives the text back, and
    no piece, so no event block, contains [BEGIN:VEVENT]. *)
Theorem X10_split_round_trip (content : string) :
  String.concat EVENT_MARKER (PyStr.split EVENT_MARKER content) = content
  /\ Forall (fun piece => ~ occurs_in EVENT_MARKER piece)
       (PyStr.split EVENT_MARKER content)
  /\ Forall (fun evt => ~ occurs_in EVENT_MARKER evt) (event_blocks content).
Proof.
  assert (Hsep : EVENT_MARKER <> "") by discriminate.
  split; [now apply split_join|].
  pose proof (split_pieces_free EVENT_MARKER content Hsep) as F.
  split; [exact F|].
  unfold event_blocks. fold EVENT_MARKER.
  destruct (split EVENT_MARKER content); [constructor|].
  now inversion F.
Qed.

(** X11. A text without the marker has no event block: [parse_ics] returns
    the empty list for it, whatever else the text holds. *)
Theorem X11_no_marker_no_records (content shift_name : string) :
  ~ occurs_in EVENT_MARKER content ->
  PyStr.split EVENT_MARKER content = [content]
  /\ event_blocks content = []
  /\ parse_content content shift_name = Ok [].
Proof.
  intros H. pose proof (split_absent EVENT_MARKER content H) as E.
  unfold parse_content, event_blocks. fold EVENT_MARKER. rewrite E.
  repeat split.
Qed.

Lemma X11_no_marker_no_records_witness :
  PyStr.split EVENT_MARKER file_no_event = [file_no_event]
  /\ event_blocks file_no_event = []
  /\ parse_content file_no_event "AM" = Ok [].
Proof.
  apply (X11_no_marker_no_records file_no_event "AM").
  intros H. apply contains_iff in H. discriminate H.
Defined.

End SplitExtras.

(** ** Which match the searches return *)

Section SearchExtras.
Import PyStr PyRe.

Lemma drop_prefix_None (p s : string) :
  drop_prefix p s = None <-> startswith p s = false.
Proof.
  destruct (drop_prefix p s) as [t|] eqn:D.
  - apply drop_prefix_Some in D. split; [discriminate|].
    intros H. assert (T : startswith p s = true)
      by (apply startswith_iff; now exists t).
    congruence.
  - split; [|reflexivity]. intros _.
    destruct (startswith p s) eqn:E; [|reflexivity].
    apply startswith_iff in E as [t E]. apply drop_prefix_Some in E.
    congruence.
Qed.

Lemma dot_star_iff (rest g : string) :
  dot_star rest = g <->
  exists post : string, rest = (g ++ post)%string /\ rest_of_line g post.
Proof.
  unfold rest_of_line. revert g. induction rest as [|c rest IH]; intros g.
  - cbn [dot_star]. split.
    + intros <-. exists "". repeat split; auto; intros c [].
    + intros (post & E & _). destruct g; [reflexivity|discriminate].
  - cbn [dot_star]. destruct (Z.eqb_spec (code c) 10) as [e|ne].
    + split.
      * intros <-. exists (String c rest). repeat split.
        -- intros x [].
        -- right. exists rest. cbn. f_equal.
           apply code_inj. rewrite e. reflexivity.
      * intros (post & E & Hg & _). destruct g as [|x g]; [reflexivity|].
        cbn in E. injection E as E1 _. subst x.
        elim (Hg c); [now left | exact e].
    + split.
      * intros <-. destruct (proj1 (IH (dot_star rest)) eq_refl)
          as (post & E & Hg & Hp).
        exists post. repeat split; auto.
        -- cbn. now rewrite <- E.
        -- cbn. intros x [<-|Hx]; auto.
      * intros (post & E & Hg & Hp). destruct g as [|x g].
        -- cbn in E. subst post. destruct Hp as [Hp|[post' Hp]];
             [discriminate|].
           cbn in Hp. injection Hp as E1 _. subst c. now elim ne.
        -- cbn in E. injection E as E1 E. subst x. f_equal. apply IH.
           exists post. repeat split; auto.
           intros y Hy. apply Hg. now right.
Qed.

(** X12. The title [parse_ics] takes from a block is the rest of the line
    after the leftmost [SUMMARY:] found anywhere in the block, also inside
    another field. *)
Theorem X12_summary_is_leftmost (evt g : string) :
  search_summary evt = Some g <->
  exists pre post : string,
    leftmost (fun s => startswith "SUMMARY:" s = true) evt pre
      ("SUMMARY:" ++ g ++ post)
    /\ rest_of_line g post.
Proof.
  unfold leftmost. induction evt as [|c evt IH]; cbn [search_summary].
  - cbn [drop_prefix]. split; [discriminate|].
    intros (pre & post & (E & _) & _). destruct pre; discriminate.
  - destruct (drop_prefix "SUMMARY:" (String c evt)) as [rest|] eqn:D.
    + pose proof D as D'. apply drop_prefix_Some in D'. split.
      * intros [= <-].
        destruct (proj1 (dot_star_iff rest (dot_star rest)) eq_refl)
          as (post & E & R).
        exists "", post. split; [|exact R]. split.
        -- cbn [append]. rewrite D'. cbn. now rewrite <- E.
        -- cbn. intros ? ? _ L. lia.
      * intros (pre & post & (E & L) & R). destruct pre as [|x pre].
        -- f_equal. apply dot_star_iff. exists post. split; [|exact R].
           assert (D2 : drop_prefix "SUMMARY:" (String c evt)
                        = Some (g ++ post)%string)
             by (apply drop_prefix_Some; exact E).
           congruence.
        -- exfalso. apply (L "" (String c evt)); [reflexivity | cbn; lia |].
           apply startswith_iff. now exists rest.
    + pose proof (proj1 (drop_prefix_None _ _) D) as N.
      rewrite IH. split.
      * intros (pre & post & (E & L) & R).
        exists (String c pre), post. split; [|exact R]. split.
        -- cbn. now rewrite E.
        -- intros pre' s' E' L'. destruct pre' as [|x pre'].
           ++ cbn in E'. subst s'. congruence.
           ++ cbn in E', L'. injection E' as _ E'.
              apply (L pre' s' E'). lia.
      * intros (pre & post & (E & L) & R). destruct pre as [|x pre].
        -- assert (D2 : drop_prefix "SUMMARY:" (String c evt)
                        = Some (g ++ post)%string)
             by (apply drop_prefix_Some; exact E).
           congruence.
        -- cbn in E. injection E as _ E.
           exists pre, post. split; [|exact R]. split; [exact E|].
           intros pre' s' E' L'.
           apply (L (String c pre') s'); [cbn; now rewrite E' | cbn; lia].
Qed.

(** X13. The date [parse_ics] takes for [tag] is the eight digits of the
    leftmost date field of that name in the block; what follows the digits
    (a time, as in [DTSTART:20260103T090000Z]) is ignored. *)
Theorem X13_date_is_leftmost (tag evt g : string) :
  search_date tag evt = Some g <->
  exists pre s : string,
    leftmost (fun s' => exists g', date_field_at tag g' s') evt pre s
    /\ date_field_at tag g s.
Proof.
  unfold leftmost. induction evt as [|c evt IH]; cbn [search_date].
  - destruct (match_date_at tag "") as [g'|] eqn:M.
    + apply match_date_at_Some in M. split.
      * intros [= <-]. exists "", "".
        split; [split; [reflexivity | cbn; intros ? ? _ L; lia] | exact M].
      * intros (pre & s & (E & _) & F).
        destruct pre; [|discriminate]. cbn in E. subst s.
        apply match_date_at_Some in M, F. congruence.
    + split; [discriminate|]. intros (pre & s & (E & _) & F).
      destruct pre; [|discriminate]. cbn in E. subst s.
      apply match_date_at_Some in F. congruence.
  - destruct (match_date_at tag (String c evt)) as [g'|] eqn:M.
    + pose proof M as M'. apply match_date_at_Some in M'. split.
      * intros [= <-]. exists "", (String c evt).
        split; [split; [reflexivity | cbn; intros ? ? _ L; lia] | exact M'].
      * intros (pre & s & (E & L) & F). destruct pre as [|x pre].
        -- cbn in E. subst s. apply match_date_at_Some in F. congruence.
        -- exfalso. apply (L "" (String c evt)); [reflexivity | cbn; lia |].
           now exists g'.
    + rewrite IH. split.
      * intros (pre & s & (E & L) & F).
        exists (String c pre), s. split; [|exact F]. split.
        -- cbn. now rewrite E.
        -- intros pre' s' E' L'. destruct pre' as [|x pre'].
           ++ cbn in E'. subst s'. intros [g'' F'].
              apply match_date_at_Some in F'. congruence.
           ++ cbn in E', L'. injection E' as _ E'.
              apply (L pre' s' E'). lia.
      * intros (pre & s & (E & L) & F). destruct pre as [|x pre].
        -- cbn in E. subst s. apply match_date_at_Some in F. congruence.
        -- cbn in E. injection E as _ E.
           exists pre, s. split; [|exact F]. split; [exact E|].
           intros pre' s' E' L'.
           apply (L (String c pre') s'); [cbn; now rewrite E' | cbn; lia].
Qed.

Lemma X12_summary_is_leftmost_witness :
  exists pre post : string,
    leftmost (fun s => startswith "SUMMARY:" s = true) block_summary_inside
      pre ("SUMMARY:" ++ "Night desk" ++ post)
    /\ rest_of_line "Night desk" post.
Proof.
  apply (proj1 (X12_summary_is_leftmost block_summary_inside "Night desk")).
  reflexivity.
Defined.

Lemma X13_date_is_leftmost_witness :
  exists pre s : string,
    leftmost (fun s' => exists g', date_field_at "DTSTART" g' s')
      block_summary_inside pre s
    /\ date_field_at "DTSTART" "20260103" s.
Proof.
  apply (proj1 (X13_date_is_leftmost "DTSTART" block_summary_inside "20260103")).
  reflexivity.
Defined.

End SearchExtras.

(** ** Stability of the sort *)

Section SortExtras.
Import PyStr.

Lemma str_lt_irrefl (a : string) : str_lt a a = false.
Proof.
  destruct (str_lt a a) eqn:E; [|reflexivity].
  apply str_lt_iff in E. now apply lex_lt_irrefl in E.
Qed.

Lemma tuple_lt_irrefl (a : string * string) : tuple_lt a a = false.
Proof. unfold tuple_lt. rewrite String.eqb_refl. apply str_lt_irrefl. Qed.

Lemma same_key_sort_key (z x : ShiftRecord) :
  same_key z x = true -> sort_key x = sort_key z.
Proof.
  unfold same_key, sort_key. intros H. apply andb_prop in H as [H1 H2].
  apply String.eqb_eq in H1, H2. congruence.
Qed.

Lemma insert_by_key_filter (z x : ShiftRecord) (l : list ShiftRecord) :
  filter (same_key z) (insert_by_key x l) = filter (same_key z) (x :: l).
Proof.
  induction l as [|y l IH]; cbn [insert_by_key]; [reflexivity|].
  destruct (tuple_lt (sort_key y) (sort_key x)) eqn:T; [|reflexivity].
  cbn [filter] in *. rewrite IH.
  destruct (same_key z y) eqn:Ky, (same_key z x) eqn:Kx; try reflexivity.
  apply same_key_sort_key in Ky, Kx. rewrite Ky, Kx, tuple_lt_irrefl in T.
  discriminate.
Qed.

(** X14. The sort is stable: the records that share a date and a shift tag
    come out in the order in which they went in, that is in the order of
    the file. *)
Theorem X14_sort_is_stable (z : ShiftRecord) (l : list ShiftRecord) :
  filter (same_key z) (sort_by_key l) = filter (same_key z) l.
Proof.
  induction l as [|x l IH]; cbn [sort_by_key]; [reflexivity|].
  rewrite insert_by_key_filter. cbn [filter]. now rewrite IH.
Qed.

End SortExtras.

(** ** Events of a single day *)

Section DayExtras.
Import PyStr PyRe PyDatetimeFacts.

Lemma weekend_days_single (sd : PyDatetime.datetime) :
  PyDatetime.valid sd ->
  weekend_days sd sd = if is_weekend sd then [sd] else [].
Proof.
  intros V. unfold weekend_days.
  replace (Z.to_nat _) with 1%nat by lia.
  unfold ordinals_from. cbn [seq map filter].
  rewrite Z.add_0_r, (fromordinal_toordinal sd V). reflexivity.
Qed.

(** X15. An event of a single day, written without an end date or, as
    calendar exports do, with the next day as its end, contributes one
    record when that day is a Saturday or a Sunday and none otherwise. *)
Theorem X15_single_day_event (shift_name evt summary : string)
    (sd : PyDatetime.datetime) :
  kept_block evt summary sd ->
  search_date "DTEND" evt = None
  \/ (exists (end_str : string) (e : PyDatetime.datetime),
        search_date "DTEND" evt = Some end_str
        /\ PyDatetime.strptime end_str = Ok e
        /\ yesterday e = Some sd) ->
  block_records shift_name evt
  = Ok (if is_weekend sd then [record_for summary shift_name sd] else []).
Proof.
  intros K H. unfold block_records.
  pose proof K as (g & st & _ & _ & _ & _ & Hp & Hy & _).
  pose proof (strptime_valid _ _ Hp) as Vs.
  assert (E : effective_end sd (search_date "DTEND" evt) = Ok sd).
  { destruct H as [->|(en & e & -> & Hpe & Hye)]; [reflexivity|].
    cbn [effective_end]. rewrite Hpe. cbn [bind].
    apply sub_days_yesterday; [now apply strptime_valid in Hpe | exact Hye]. }
  rewrite (kept_block_process _ _ _ _ _ K), E. cbn [bind].
  rewrite weekend_loop_total
    by first [exact Vs | apply toordinal_lt_max; [exact Vs | lia]].
  rewrite (weekend_days_single sd Vs). cbn [app].
  now destruct (is_weekend sd).
Qed.

Lemma X15_single_day_event_witness :
  block_records "AM" block_sat_next_day
  = Ok [record_for "Alice" "AM" (PyDatetime.mkdt 2026 1 3)]
  /\ block_records "AM" block_fri_only = Ok [].
Proof.
  split.
  - apply (X15_single_day_event "AM" block_sat_next_day "Alice"
             (PyDatetime.mkdt 2026 1 3)).
    + exists "Alice", "20260103".
      repeat split; auto; try (cbn; lia);
        intros H; apply contains_iff in H; discriminate H.
    + right. exists "20260104", (PyDatetime.mkdt 2026 1 4).
      repeat split.
  - apply (X15_single_day_event "AM" block_fri_only "Alice"
             (PyDatetime.mkdt 2026 1 2)).
    + exists " Alice ", "20260102".
      repeat split; auto; try (cbn; lia);
        intros H; apply contains_iff in H; discriminate H.
    + left. reflexivity.
Defined.

End DayExtras.

(** ** Whole weeks *)

Section WeekExtras.
Import PyStr PyRe PyDatetimeFacts.

Lemma ordinals_from_app (a : Z) (j k : nat) :
  ordinals_from a (j + k)
  = ordinals_from a j ++ ordinals_from (a + Z.of_nat j) k.
Proof.
  revert a. induction j as [|j IH]; intros a.
  - cbn [Nat.add]. unfold ordinals_from at 2. cbn [seq map app].
    f_equal. cbn. lia.
  - change (S j + k)%nat with (S (j + k)).
    rewrite !ordinals_from_S, IH. cbn [app]. do 3 f_equal. lia.
Qed.

Lemma is_weekend_fromordinal (o : Z) :
  1 <= o <= PyDatetime.MAXORDINAL ->
  is_weekend (PyDatetime.fromordinal o)
  = (((o + 6) mod 7 =? 5) || ((o + 6) mod 7 =? 6)).
Proof.
  intros H. unfold is_weekend, PyDatetime.weekday.
  now rewrite toordinal_fromordinal.
Qed.

(** Seven days in a row hold one Saturday and one Sunday. *)
Lemma one_week (a : Z) :
  1 <= a -> a + 6 <= PyDatetime.MAXORDINAL ->
  List.length (filter is_weekend
                 (map PyDatetime.fromordinal (ordinals_from a 7))) = 2%nat.
Proof.
  intros H1 H2. unfold ordinals_from. cbn [seq map filter].
  rewrite !is_weekend_fromordinal by lia.
  assert (R : 0 <= (a + 6) mod 7 < 7) by (apply Z.mod_pos_bound; lia).
  assert (E : forall i, (a + i + 6) mod 7 = ((a + 6) mod 7 + i) mod 7).
  { intros i. replace (a + i + 6) with (a + 6 + i) by ring.
    rewrite Zplus_mod_idemp_l. reflexivity. }
  rewrite !E.
  assert (C : (a + 6) mod 7 = 0 \/ (a + 6) mod 7 = 1 \/ (a + 6) mod 7 = 2
              \/ (a + 6) mod 7 = 3 \/ (a + 6) mod 7 = 4
              \/ (a + 6) mod 7 = 5 \/ (a + 6) mod 7 = 6) by lia.
  destruct C as [C|[C|[C|[C|[C|[C|C]]]]]]; rewrite C; reflexivity.
Qed.

Lemma whole_weeks (n : nat) :
  forall a : Z,
    1 <= a -> a + 7 * Z.of_nat n - 1 <= PyDatetime.MAXORDINAL ->
    List.length (filter is_weekend
                   (map PyDatetime.fromordinal (ordinals_from a (7 * n))))
    = (2 * n)%nat.
Proof.
  induction n as [|n IH]; intros a H1 H2.
  - reflexivity.
  - replace (7 * S n)%nat with (7 + 7 * n)%nat by lia.
    rewrite ordinals_from_app, map_app, filter_app, length_app.
    rewrite one_week by lia. rewrite IH by lia. lia.
Qed.

(** X17. An event that lasts a whole number [n] of weeks contributes
    exactly [2 * n] records, on whatever weekday it starts. *)
Theorem X17_whole_weeks (shift_name evt summary : string)
    (sd last : PyDatetime.datetime) (n : nat) :
  kept_block evt summary sd ->
  effective_end sd (search_date "DTEND" evt) = Ok last ->
  PyDatetime.toordinal last - PyDatetime.toordinal sd + 1 = 7 * Z.of_nat n ->
  exists c : list ShiftRecord,
    block_records shift_name evt = Ok c /\ List.length c = (2 * n)%nat.
Proof.
  intros K E W. unfold block_records.
  pose proof K as (g & st & _ & _ & _ & _ & Hp & Hy & _).
  pose proof (strptime_valid _ _ Hp) as Vs.
  destruct (effective_end_ok _ _ _ Vs Hy E) as [Vl Ml].
  pose proof (toordinal_range _ Vs) as Rs.
  rewrite (kept_block_process _ _ _ _ _ K), E. cbn [bind].
  rewrite weekend_loop_total by assumption. cbn [app].
  eexists. split; [reflexivity|].
  rewrite length_map. unfold weekend_days. rewrite W.
  replace (Z.to_nat (7 * Z.of_nat n)) with (7 * n)%nat by lia.
  apply whole_weeks; lia.
Qed.

Lemma X17_whole_weeks_witness :
  exists c : list ShiftRecord,
    block_records "AM" block_two_weeks_from_wed = Ok c
    /\ List.length c = (2 * 2)%nat.
Proof.
  apply (X17_whole_weeks "AM" block_two_weeks_from_wed "Alice"
           (PyDatetime.mkdt 2026 1 7) (PyDatetime.mkdt 2026 1 20) 2).
  - exists "Alice", "20260107".
    repeat split; auto; try (cbn; lia);
      intros H; apply contains_iff in H; discriminate H.
  - reflexivity.
  - reflexivity.
Defined.

End WeekExtras.

(** ** Every record and its event *)

Section RecordsAndEvents.
Import PyStr PyRe PyDatetimeFacts.

(** A list that is not empty was read from one of the two files. *)
Lemma parse_ics_source (script_dir : string) (fs : string -> file_state)
    (filename shift_name : string) (out : list string)
    (rs : list ShiftRecord) (r : ShiftRecord) :
  fst (parse_ics script_dir fs filename shift_name out) = Ok rs -> In r rs ->
  exists content : string,
    file_read script_dir fs filename content
    /\ parse_content content shift_name = Ok rs.
Proof.
  unfold parse_ics, path_exists, file_read.
  fold (primary_path script_dir filename). fold FALLBACK_DIR.
  fold (fallback_path filename).
  destruct (fs (primary_path script_dir filename)) as [|err|content] eqn:P;
    cbn [negb].
  - cbv beta iota delta [io_bind log print].
    destruct (fs (fallback_path filename)) as [|err|content] eqn:F;
      cbn [negb].
    + cbn. intros [= <-] [].
    + rewrite read_and_parse_fst, F. intros [= <-] [].
    + rewrite read_and_parse_fst, F. intros H _. exists content. auto.
  - rewrite read_and_parse_fst, P. intros [= <-] [].
  - rewrite read_and_parse_fst, P. intros H _. exists content. auto.
Qed.

Lemma record_for_of_event (shift_name evt summary : string)
    (sd last d : PyDatetime.datetime) :
  kept_block evt summary sd ->
  effective_end sd (search_date "DTEND" evt) = Ok last ->
  PyDatetime.valid sd -> PyDatetime.valid last ->
  In d (weekend_days sd last) ->
  record_of_event shift_name evt (record_for summary shift_name d).
Proof.
  intros K E Vs Vl Hd.
  apply weekend_days_In in Hd as (Vd & L1 & L2 & W); auto.
  pose proof K as (g & st & _ & _ & _ & _ & _ & Hy & Hm).
  exists summary, sd, last, d.
  split; [exact K|]. split; [exact Hy|]. split.
  { unfold PyDatetime.valid, PyDatetime.check_date_fields in Vs. zbool. lia. }
  split; [exact E|]. split; [exact Vd|]. split; [exact L1|].
  split; [exact L2|]. split; [reflexivity|]. split; [|split; reflexivity].
  unfold is_weekend in W. apply orb_prop in W. cbn [record_for day].
  destruct W as [W|W]; apply Z.eqb_eq in W; rewrite W; [left|right];
    now split.
Qed.

(** C2, as amended.  Every record returned by [parse_ics] is a record of
    one of the event blocks of the file that was read: it is for a Saturday
    or a Sunday, with the [day] field saying which, it carries the shift
    tag, and it is dated on or after the start date of that event, which
    lies in 2026 in month 1 or 2 (and not after the effective last day of
    that event, which may lie later). *)
Theorem C2_records_weekend_from_window (script_dir : string)
    (fs : string -> file_state) (filename shift_name : string)
    (out : list string) (rs : list ShiftRecord) :
  fst (parse_ics script_dir fs filename shift_name out) = Ok rs ->
  forall r, In r rs ->
    weekend_labelled r
    /\ weekend_from_window shift_name r
    /\ exists content evt : string,
         file_read script_dir fs filename content
         /\ In evt (event_blocks content)
         /\ record_of_event shift_name evt r.
Proof.
  intros H r Hr.
  destruct (parse_ics_source _ _ _ _ _ _ _ H Hr) as (content & Hf & Hc).
  destruct (parse_content_records content shift_name rs Hc r Hr) as [W1 W2].
  split; [exact W1|]. split; [exact W2|].
  destruct (parse_content_origin _ _ _ _ Hc Hr)
    as (evt & summary & sd & last & d & Hin & K & E & Vs & Vl & Hd & ->).
  exists content, evt. split; [exact Hf|]. split; [exact Hin|].
  now apply (record_for_of_event _ _ _ sd last).
Qed.

Lemma C2_records_weekend_from_window_witness :
  weekend_labelled (mkrec "2026-03-01" "Sun" "Alice" "AM")
  /\ weekend_from_window "AM" (mkrec "2026-03-01" "Sun" "Alice" "AM")
  /\ exists content evt : string,
       file_read sample_dir (fs_single sample_am_path file_feb_to_march)
         AM_FILE content
       /\ In evt (event_blocks content)
       /\ record_of_event "AM" evt (mkrec "2026-03-01" "Sun" "Alice" "AM").
Proof.
  apply (C2_records_weekend_from_window sample_dir
           (fs_single sample_am_path file_feb_to_march) AM_FILE "AM" []
           [mkrec "2026-02-28" "Sat" "Alice" "AM";
            mkrec "2026-03-01" "Sun" "Alice" "AM";
            mkrec "2026-03-07" "Sat" "Alice" "AM";
            mkrec "2026-03-08" "Sun" "Alice" "AM"]).
  - vm_compute. reflexivity.
  - right. left. reflexivity.
Defined.

End RecordsAndEvents.
